(** * ing2qif: ING bank CSV statements to QIF

    A shallow embedding of [ing2qif.py].  The values that reach the
    converter are text or [None] (what [csv.DictReader] puts in a short
    row); a CSV row is a dictionary from column names to such values;
    exceptions are an error monad, with one constructor for each exception
    the converter can raise.  Characters are code points below 256.
    Reading the CSV file and printing are outside the model: [main] takes
    the rows and returns the text it prints. *)

From Stdlib Require Import Ascii ZArith Lia Bool.
From stdpp Require Import gmap strings list.

(** ** Python values and exceptions *)

Inductive pyval : Type :=
  | PyNone
  | PyStr (s : string).

#[global] Instance pyval_eq_dec : EqDecision pyval.
Proof. solve_decision. Defined.

Inductive exn : Type :=
  | KeyError
  | ValueError
  | AttributeError
  | TypeError
  | Exception (mededelingen omschrijving : pyval).

Inductive result (A : Type) : Type :=
  | Ok (a : A)
  | Raise (e : exn).
Arguments Ok {A} a.
Arguments Raise {A} e.

#[global] Instance result_ret : MRet result := @Ok.

#[global] Instance result_bind : MBind result := fun A B k r =>
  match r with
  | Ok a => k a
  | Raise e => Raise e
  end.

Definition raises {A} (r : result A) : Prop :=
  match r with Ok _ => False | Raise _ => True end.

(** [try: body / except KeyError: handler] *)
Definition try_except_KeyError {A} (body handler : result A) : result A :=
  match body with
  | Raise KeyError => handler
  | other => other
  end.

(** [try: body / except: handler] (a bare [except] catches everything) *)
Definition try_except_all {A} (body handler : result A) : result A :=
  match body with
  | Ok a => Ok a
  | Raise _ => handler
  end.

(** [try: body / except ValueError: handler] *)
Definition try_except_ValueError {A} (body handler : result A) : result A :=
  match body with
  | Raise ValueError => handler
  | other => other
  end.

(** ** Text primitives *)

Definition is_empty (s : string) : bool :=
  match s with EmptyString => true | String _ _ => false end.

(** [s.startswith(p)] *)
Fixpoint startswith (p s : string) : bool :=
  match p, s with
  | EmptyString, _ => true
  | String a p', String b s' => if decide (a = b) then startswith p' s' else false
  | String _ _, EmptyString => false
  end.

(** First position at which [sub] occurs in [s], as [s.find(sub)]. *)
Fixpoint str_find (sub s : string) : option nat :=
  if startswith sub s then Some 0
  else match s with
       | EmptyString => None
       | String _ s' => S <$> str_find sub s'
       end.

Fixpoint str_take (n : nat) (s : string) : string :=
  match n, s with
  | S n', String a s' => String a (str_take n' s')
  | _, _ => EmptyString
  end.

Fixpoint str_drop (n : nat) (s : string) : string :=
  match n, s with
  | S n', String _ s' => str_drop n' s'
  | _, _ => s
  end.

(** [s[lo:hi]] for non-negative bounds *)
Definition str_slice (lo hi : nat) (s : string) : string :=
  str_take (hi - lo) (str_drop lo s).

(** [s.replace(old, new)] for one-character [old] and [new] *)
Fixpoint replace_char (old new : ascii) (s : string) : string :=
  match s with
  | EmptyString => EmptyString
  | String a s' =>
      String (if decide (a = old) then new else a) (replace_char old new s')
  end.

(** [c.isspace()] on the code points below 256 *)
Definition isspace (c : ascii) : bool :=
  let n := nat_of_ascii c in
  ((9 <=? n) && (n <=? 13)) || ((28 <=? n) && (n <=? 32))
  || (n =? 133) || (n =? 160).

Fixpoint lstrip (s : string) : string :=
  match s with
  | EmptyString => EmptyString
  | String a s' => if isspace a then lstrip s' else s
  end.

Fixpoint rstrip (s : string) : string :=
  match s with
  | EmptyString => EmptyString
  | String a s' =>
      let r := rstrip s' in
      if is_empty r && isspace a then EmptyString else String a r
  end.

(** [s.strip()] *)
Definition strip (s : string) : string := lstrip (rstrip s).

(** [sep.join(parts)] *)
Fixpoint join (sep : string) (parts : list string) : string :=
  match parts with
  | [] => EmptyString
  | [p] => p
  | p :: rest => p +:+ sep +:+ join sep rest
  end.

Fixpoint all_space (s : string) : bool :=
  match s with
  | EmptyString => true
  | String a s' => isspace a && all_space s'
  end.

Fixpoint last_char (s : string) : option ascii :=
  match s with
  | EmptyString => None
  | String a EmptyString => Some a
  | String _ s' => last_char s'
  end.

Definition first_char (s : string) : option ascii :=
  match s with
  | EmptyString => None
  | String a _ => Some a
  end.

(** ** Operations on Python values *)

(** [str(v)], as used by ["{}".format(v)] and ["%s" % v] *)
Definition py_str (v : pyval) : string :=
  match v with
  | PyNone => "None"
  | PyStr s => s
  end.

(** [bool(v)] *)
Definition py_truthy (v : pyval) : bool :=
  match v with
  | PyNone => false
  | PyStr s => negb (is_empty s)
  end.

(** [v is None] *)
Definition py_is_none (v : pyval) : bool :=
  match v with PyNone => true | PyStr _ => false end.

(** [v == s] *)
Definition py_eq_str (v : pyval) (s : string) : bool :=
  bool_decide (v = PyStr s).

(** [v.startswith(p)] *)
Definition py_startswith (v : pyval) (p : string) : result bool :=
  match v with
  | PyNone => Raise AttributeError
  | PyStr s => Ok (startswith p s)
  end.

(** [v.index(sub)] *)
Definition py_index (v : pyval) (sub : string) : result nat :=
  match v with
  | PyNone => Raise AttributeError
  | PyStr s =>
      match str_find sub s with
      | Some i => Ok i
      | None => Raise ValueError
      end
  end.

(** [sub in v] *)
Definition py_contains (sub : string) (v : pyval) : result bool :=
  match v with
  | PyNone => Raise TypeError
  | PyStr s => Ok (bool_decide (is_Some (str_find sub s)))
  end.

(** [v[lo:hi]] *)
Definition py_slice (v : pyval) (lo hi : nat) : result pyval :=
  match v with
  | PyNone => Raise TypeError
  | PyStr s => Ok (PyStr (str_slice lo hi s))
  end.

(** [v[:hi]] *)
Definition py_slice_to (v : pyval) (hi : nat) : result pyval :=
  match v with
  | PyNone => Raise TypeError
  | PyStr s => Ok (PyStr (str_take hi s))
  end.

(** [v.replace(old, new)] *)
Definition py_replace (v : pyval) (old new : ascii) : result pyval :=
  match v with
  | PyNone => Raise AttributeError
  | PyStr s => Ok (PyStr (replace_char old new s))
  end.

(** [v.strip()] *)
Definition py_strip (v : pyval) : result string :=
  match v with
  | PyNone => Raise AttributeError
  | PyStr s => Ok (strip s)
  end.

(** [s + v] for a text [s] *)
Definition py_str_add (s : string) (v : pyval) : result string :=
  match v with
  | PyNone => Raise TypeError
  | PyStr t => Ok (s +:+ t)
  end.

(** ["%s %s" % (a, b)] *)
Definition fmt_pair (a b : pyval) : string :=
  py_str a +:+ " " +:+ py_str b.

(** [d[k]] on a row *)
Definition dict_subscript (d : gmap string pyval) (k : string) : result pyval :=
  match d !! k with
  | Some v => Ok v
  | None => Raise KeyError
  end.

(** [d.get(k)] on a row *)
Definition dict_get (d : gmap string pyval) (k : string) : pyval :=
  default PyNone (d !! k).

(** [table[k]] on a dictionary literal with text keys *)
Definition table_subscript {V} (table : gmap string V) (k : pyval) : result V :=
  match k with
  | PyNone => Raise KeyError
  | PyStr s =>
      match table !! s with
      | Some v => Ok v
      | None => Raise KeyError
      end
  end.

(** ** class Entry *)

Module Entry.

Record t : Type := { _data : gmap string pyval }.

(** [_clean_up]: reads the amount column by subscript and stores the
    normalised text under the key [amount]. *)
Definition _clean_up (data : gmap string pyval) : result (gmap string pyval) :=
  raw ← dict_subscript data "Bedrag (EUR)";
  amount ← py_replace raw "," ".";
  mret (<["amount" := amount]> data).

Definition __init__ (data : gmap string pyval) : result t :=
  data' ← _clean_up data;
  mret {| _data := data' |}.

(** [keys]: the key view of the dictionary, as the set of its keys. *)
Definition keys (self : t) : gset string := dom (_data self).

(** [__getattr__] is the fallback of attribute access: it is called for a
    name that normal attribute lookup does not find, as for [entry.Datum];
    [_data], [keys], [_clean_up] and the attributes of every object never
    reach it. *)
Definition __getattr__ (self : t) (item : string) : pyval :=
  dict_get (_data self) item.

Definition __getitem__ (self : t) (item : string) : pyval :=
  dict_get (_data self) item.

End Entry.

(** ** class QifEntry *)

Module QifEntry.

Record t : Type := { _entry : Entry.t; _data : list string }.

Definition _memo_geldautomaat (mededelingen omschrijving : pyval) : result pyval :=
  b1 ← py_startswith omschrijving "ING>";
  b2 ← (if b1 : bool then mret true else py_startswith omschrijving "ING BANK>");
  b3 ← (if b2 : bool then mret true else py_startswith omschrijving "OPL. CHIPKNIP");
  if b3 : bool then mret omschrijving
  else py_slice_to mededelingen 32.

Definition _memo_incasso (mededelingen omschrijving : pyval) : result pyval :=
  b1 ← py_startswith omschrijving "SEPA Incasso";
  b2 ← (if b1 : bool then mret true else py_startswith mededelingen "SEPA Incasso");
  if b2 : bool then
    s ← try_except_all
          (i ← py_index mededelingen "Naam: "; mret (i + 6))
          (Raise (Exception mededelingen omschrijving));
    e ← py_index mededelingen "Kenmerk: ";
    py_slice mededelingen s e
  else mret PyNone.

Definition _memo_internetbankieren (mededelingen omschrijving : pyval) : result pyval :=
  try_except_ValueError
    (i ← py_index mededelingen "Naam: ";
     let s := i + 6 in
     has ← py_contains "Omschrijving:" mededelingen;
     e ← (if has : bool then py_index mededelingen "Omschrijving: "
          else py_index mededelingen "IBAN: ");
     py_slice mededelingen s e)
    (mret PyNone).

Definition _memo_diversen (mededelingen omschrijving : pyval) : result pyval :=
  py_slice_to mededelingen 64.

Definition _memo_verzamelbetaling (mededelingen omschrijving : pyval) : result pyval :=
  has ← py_contains "Naam: " mededelingen;
  if has : bool then
    i ← py_index mededelingen "Naam: ";
    let s := i + 6 in
    e ← py_index mededelingen "Kenmerk: ";
    py_slice mededelingen s e
  else mret PyNone.

(** The dictionary literal of [_memo]. *)
Definition memo_methods : gmap string (pyval -> pyval -> result pyval) :=
  list_to_map
    [ ("Diversen", _memo_diversen);
      ("Betaalautomaat", _memo_geldautomaat);
      ("Geldautomaat", _memo_geldautomaat);
      ("Incasso", _memo_incasso);
      ("Internetbankieren", _memo_internetbankieren);
      ("Overschrijving", _memo_internetbankieren);
      ("Verzamelbetaling", _memo_verzamelbetaling) ].

(** The dictionary literal of [_entry_type]. *)
Definition entry_types : gmap string string :=
  list_to_map
    [ ("Geldautomaat", "ATM");
      ("Internetbankieren", "Transfer");
      ("Incasso", "Transfer");
      ("Verzamelbetaling", "Transfer");
      ("Betaalautomaat", "ATM");
      ("Storting", "Deposit") ].

Definition _entry_type (entry : Entry.t) : result pyval :=
  try_except_KeyError
    (label ← table_subscript entry_types (Entry.__getitem__ entry "MutatieSoort");
     mret (PyStr label))
    (mret PyNone).

(** The [try] / [except KeyError] / [finally] block of [_memo]: the memo
    before the category prefix is applied. *)
Definition memo_before_prefix (entry : Entry.t) : result pyval :=
  let mutatie_soort := Entry.__getitem__ entry "MutatieSoort" in
  let mededelingen := Entry.__getitem__ entry "Mededelingen" in
  let omschrijving := Entry.__getitem__ entry "Naam / Omschrijving" in
  let default_memo :=
    PyStr (fmt_pair (Entry.__getitem__ entry "Mededelingen")
                    (Entry.__getitem__ entry "Naam / Omschrijving")) in
  memo ← try_except_KeyError
           (memo_method ← table_subscript memo_methods mutatie_soort;
            memo_method mededelingen omschrijving)
           (mret PyNone);
  mret (if py_is_none memo then default_memo else memo).

Definition _memo (entry : Entry.t) : result string :=
  memo ← memo_before_prefix entry;
  entry_type ← _entry_type entry;
  if py_truthy entry_type then
    entry_type' ← _entry_type entry;
    mret (fmt_pair entry_type' memo)
  else py_strip memo.

Definition _amount_format (entry : Entry.t) : result string :=
  if py_eq_str (Entry.__getitem__ entry "Af Bij") "Bij"
  then py_str_add "+" (Entry.__getitem__ entry "amount")
  else py_str_add "-" (Entry.__getitem__ entry "amount").

Definition _processing (entry : Entry.t) : result (list string) :=
  let data := [] in
  let data := data ++ ["D" +:+ py_str (Entry.__getattr__ entry "Datum")] in
  amount ← _amount_format entry;
  let data := data ++ ["T" +:+ amount] in
  entry_type ← _entry_type entry;
  let data :=
    if py_truthy entry_type then data ++ ["N" +:+ py_str entry_type] else data in
  memo ← _memo entry;
  let data := data ++ ["M" +:+ memo] in
  mret (data ++ ["^"]).

Definition __init__ (entry : Entry.t) : result t :=
  data ← _processing entry;
  mret {| _entry := entry; _data := data |}.

Definition serialize (self : t) : string :=
  join (String "010" EmptyString) (_data self).

End QifEntry.

(** ** class QifEntries *)

Module QifEntries.

Record t : Type := { _entries : list QifEntry.t }.

Definition __init__ : t := {| _entries := [] |}.

Definition add_entry (self : t) (entry : Entry.t) : result t :=
  q ← QifEntry.__init__ entry;
  mret {| _entries := _entries self ++ [q] |}.

Definition serialize (self : t) : string :=
  join (String "010" EmptyString)
       ("!Type:Bank" :: map QifEntry.serialize (_entries self)).

End QifEntries.

(** ** main *)

(** [number and c > start + number - 1]; [number] is [None] when the
    option is not given. *)
Definition stop_after (number : option Z) (c start : Z) : bool :=
  match number with
  | None => false
  | Some n => negb (n =? 0)%Z && (c >? start + n - 1)%Z
  end.

(** The loop of [main] over the rows still to be read; [c] is the number
    [enumerate] gives to the first of them. *)
Fixpoint main_loop (rows : list (gmap string pyval)) (c start : Z)
    (number : option Z) (qif : QifEntries.t) : result QifEntries.t :=
  match rows with
  | [] => mret qif
  | r :: rows' =>
      entry ← Entry.__init__ r;
      if (c >=? start)%Z then
        qif' ← QifEntries.add_entry qif entry;
        if stop_after number c start then mret qif'
        else main_loop rows' (c + 1)%Z start number qif'
      else main_loop rows' (c + 1)%Z start number qif
  end.

(** [main] returns the printed text. *)
Definition main (rows : list (gmap string pyval)) (start : Z) (number : option Z)
  : result string :=
  qif ← main_loop rows 1%Z start number QifEntries.__init__;
  mret (QifEntries.serialize qif).

(** ** The lookup table and selection rule as the specification words them *)

(** The Classifier's table: kind to category label. *)
Definition classify (kind : pyval) : pyval :=
  if decide (kind = PyStr "Geldautomaat") then PyStr "ATM"
  else if decide (kind = PyStr "Betaalautomaat") then PyStr "ATM"
  else if decide (kind = PyStr "Internetbankieren") then PyStr "Transfer"
  else if decide (kind = PyStr "Incasso") then PyStr "Transfer"
  else if decide (kind = PyStr "Verzamelbetaling") then PyStr "Transfer"
  else if decide (kind = PyStr "Storting") then PyStr "Deposit"
  else PyNone.

(** The Default strategy: both narrative fields, a space between them. *)
Definition default_memo (entry : Entry.t) : pyval :=
  PyStr (fmt_pair (Entry.__getitem__ entry "Mededelingen")
                  (Entry.__getitem__ entry "Naam / Omschrijving")).

(** One row from construction to its QIF block. *)
Definition process_row (r : gmap string pyval) : result QifEntry.t :=
  entry ← Entry.__init__ r;
  QifEntry.__init__ entry.

(** [sub in s] on texts *)
Definition occurs (sub s : string) : bool :=
  bool_decide (is_Some (str_find sub s)).

(** The Incasso precondition. *)
Definition sepa_incasso (m o : string) : bool :=
  startswith "SEPA Incasso" o || startswith "SEPA Incasso" m.

(** The Incasso strategy applies and "Naam: " is absent. *)
Definition incasso_malformed (kind : pyval) (m o : string) : bool :=
  bool_decide (kind = PyStr "Incasso") && sepa_incasso m o
  && negb (occurs "Naam: " m).

(** A strategy that cuts at "Kenmerk: " found "Naam: " and no "Kenmerk: ". *)
Definition kenmerk_missing (kind : pyval) (m o : string) : bool :=
  (bool_decide (kind = PyStr "Incasso") && sepa_incasso m o
   || bool_decide (kind = PyStr "Verzamelbetaling"))
  && occurs "Naam: " m && negb (occurs "Kenmerk: " m).

(** The Internetbankieren strategy as the specification words it: the end
    is at "Omschrijving: " when that marker occurs, else at "IBAN: ". *)
Definition internetbankieren_claimed (m : string) : pyval :=
  match str_find "Naam: " m with
  | None => PyNone
  | Some i =>
      match str_find "Omschrijving: " m with
      | Some j => PyStr (str_slice (i + 6) j m)
      | None =>
          match str_find "IBAN: " m with
          | Some j => PyStr (str_slice (i + 6) j m)
          | None => PyNone
          end
      end
  end.

(** ** Sample rows *)

Definition mk_row (datum bedrag af_bij kind mededelingen omschrijving : string)
  : gmap string pyval :=
  list_to_map
    [ ("Datum", PyStr datum);
      ("Naam / Omschrijving", PyStr omschrijving);
      ("Af Bij", PyStr af_bij);
      ("Bedrag (EUR)", PyStr bedrag);
      ("MutatieSoort", PyStr kind);
      ("Mededelingen", PyStr mededelingen) ].

(** The entry [Entry.__init__] builds from such a row. *)
Definition mk_entry (datum bedrag af_bij kind mededelingen omschrijving : string)
  : Entry.t :=
  {| Entry._data :=
       <["amount" := PyStr (replace_char "," "." bedrag)]>
         (mk_row datum bedrag af_bij kind mededelingen omschrijving) |}.

(** Five rows that differ in their date. *)
Definition five_rows : list (gmap string pyval) :=
  (fun d => mk_row d "1,50" "Af" "Diversen" "koffie" "Kantine")
    <$> ["20140101"; "20140102"; "20140103"; "20140104"; "20140105"].

(** The QIF block of such a row. *)
Definition coffee_block (d : string) : QifEntry.t :=
  {| QifEntry._entry := mk_entry d "1,50" "Af" "Diversen" "koffie" "Kantine";
     QifEntry._data := ["D" +:+ d; "T-1.50"; "Mkoffie"; "^"] |}.

(** The kinds that have a memo strategy of their own. *)
Definition strategy_kinds : list string :=
  ["Diversen"; "Betaalautomaat"; "Geldautomaat"; "Incasso";
   "Internetbankieren"; "Overschrijving"; "Verzamelbetaling"].

(** The newline that joins lines and blocks. *)
Definition newline : string := String "010" EmptyString.

(** A row without narrative and one without amount column. *)
Definition row_without_narrative (kind omschrijving : string) : gmap string pyval :=
  delete "Mededelingen" (mk_row "20140102" "9,99" "Af" kind "tekst" omschrijving).

Definition row_without_amount : gmap string pyval :=
  delete "Bedrag (EUR)" (mk_row "20140102" "9,99" "Af" "Diversen" "tekst" "Iemand").

(** A row whose memo cannot be made: Incasso, precondition met, no "Naam: ". *)
Definition row_malformed : gmap string pyval :=
  mk_row "20140102" "9,99" "Af" "Incasso" "SEPA Incasso zonder naam" "Verzekeraar".

(** * Properties *)

(** ** Text primitives *)

#[local] Arguments String.append !_ _ / : simpl nomatch.

Section text.
Implicit Types (s t p sub : string) (a : ascii) (n i j : nat).

Lemma app_empty_r s : s +:+ EmptyString = s.
Proof. induction s as [|a s IH]; simpl; [done | by rewrite IH]. Qed.

Lemma app_assoc_str s t p : (s +:+ t) +:+ p = s +:+ t +:+ p.
Proof. induction s as [|a s IH]; simpl; [done | by rewrite IH]. Qed.

Lemma app_length_str s t :
  String.length (s +:+ t) = String.length s + String.length t.
Proof. induction s as [|a s IH]; simpl; [done | by rewrite IH]. Qed.

Lemma startswith_spec p s : startswith p s = true <-> exists t, s = p +:+ t.
Proof.
  revert s. induction p as [|a p IH]; intros s; simpl.
  - split; [intros _; by exists s | done].
  - destruct s as [|b s].
    + split; [done | intros [t Ht]; discriminate].
    + case_decide as Hab.
      * subst b. rewrite IH. split; intros [t Ht]; exists t; congruence.
      * split; [done | intros [t Ht]; congruence].
Qed.

Lemma startswith_app p t : startswith p (p +:+ t) = true.
Proof. apply startswith_spec. by exists t. Qed.

Lemma take_drop_str n s : str_take n s +:+ str_drop n s = s.
Proof.
  revert s. induction n as [|n IH]; intros [|a s]; simpl; try done.
  by rewrite IH.
Qed.

Lemma drop_drop_str n i s : str_drop i (str_drop n s) = str_drop (n + i) s.
Proof.
  revert s. induction n as [|n IH]; intros s; simpl; [done|].
  destruct s as [|a s]; [by destruct i | apply IH].
Qed.

Lemma drop_app_length p t : str_drop (String.length p) (p +:+ t) = t.
Proof. induction p as [|a p IH]; simpl; done. Qed.

Lemma take_length_le n s : String.length (str_take n s) <= n.
Proof.
  revert s. induction n as [|n IH]; intros [|a s]; simpl; try lia.
  specialize (IH s). lia.
Qed.

Lemma take_length_str n s :
  n <= String.length s -> String.length (str_take n s) = n.
Proof.
  revert s. induction n as [|n IH]; intros [|a s]; simpl; try lia.
  intros H. rewrite IH; lia.
Qed.

Lemma take_all_str n s : String.length s <= n -> str_take n s = s.
Proof.
  revert s. induction n as [|n IH]; intros [|a s]; simpl; try done; try lia.
  intros H. rewrite IH; [done | lia].
Qed.

Lemma take_app_length p t : str_take (String.length p) (p +:+ t) = p.
Proof. induction p as [|a p IH]; simpl; [by destruct t | by rewrite IH]. Qed.

(** [str_find] returns the first position at which [sub] occurs. *)
Lemma str_find_Some sub s i :
  str_find sub s = Some i ->
  startswith sub (str_drop i s) = true
  /\ i <= String.length s
  /\ forall j, j < i -> startswith sub (str_drop j s) = false.
Proof.
  revert i. induction s as [|a s IH]; intros i; simpl.
  - destruct (startswith sub EmptyString) eqn:E; [|done].
    intros [= <-]. split; [done | split; [done | lia]].
  - destruct (startswith sub (String a s)) eqn:E.
    + intros [= <-]. split; [done | split; [lia | lia]].
    + destruct (str_find sub s) as [k|] eqn:F; [|done].
      intros [= <-]. destruct (IH k eq_refl) as (H1 & H2 & H3).
      split; [done | split; [lia|]].
      intros [|j] Hj; simpl; [done | apply H3; lia].
Qed.

Lemma str_find_None sub s :
  str_find sub s = None -> forall j, startswith sub (str_drop j s) = false.
Proof.
  induction s as [|a s IH]; simpl.
  - destruct (startswith sub EmptyString) eqn:E; [done|]. intros _ [|j]; done.
  - destruct (startswith sub (String a s)) eqn:E; [done|].
    destruct (str_find sub s) eqn:F; [done|].
    intros _ [|j]; simpl; [done | by apply IH].
Qed.

(** An occurrence anywhere makes [str_find] succeed. *)
Lemma str_find_occurs sub s pre post :
  s = pre +:+ sub +:+ post -> is_Some (str_find sub s).
Proof.
  intros ->. destruct (str_find sub (pre +:+ sub +:+ post)) eqn:F; [by eexists|].
  pose proof (str_find_None _ _ F (String.length pre)) as H.
  rewrite drop_app_length, startswith_app in H. done.
Qed.

(** The text cut at the first occurrence of [sub]. *)
Lemma str_find_split sub s i :
  str_find sub s = Some i ->
  s = str_take i s +:+ sub +:+ str_drop (i + String.length sub) s
  /\ String.length (str_take i s) = i.
Proof.
  intros (H1 & H2 & _)%str_find_Some.
  apply startswith_spec in H1 as [t Ht]. split; [|by apply take_length_str].
  rewrite <- drop_drop_str, Ht, drop_app_length, <- Ht.
  by rewrite take_drop_str.
Qed.

Lemma str_find_drop sub s i :
  str_find sub s = Some i ->
  str_drop i s = sub +:+ str_drop (i + String.length sub) s.
Proof.
  intros (H1 & _ & _)%str_find_Some.
  apply startswith_spec in H1 as [t Ht].
  by rewrite <- drop_drop_str, Ht, drop_app_length.
Qed.

Lemma slice_drop lo hi s :
  lo <= hi -> str_drop lo s = str_slice lo hi s +:+ str_drop hi s.
Proof.
  intros Hle. unfold str_slice.
  rewrite <- (take_drop_str (hi - lo) (str_drop lo s)) at 1.
  rewrite drop_drop_str. by replace (lo + (hi - lo)) with hi by lia.
Qed.

(** The text between a first marker [p] and a first marker [t] that
    starts after it. *)
Lemma between_markers p t s i j :
  str_find p s = Some i -> str_find t s = Some j ->
  i + String.length p <= j ->
  s = str_take i s +:+ p +:+ str_slice (i + String.length p) j s
      +:+ t +:+ str_drop (j + String.length t) s.
Proof.
  intros Hp Ht Hle.
  rewrite <- (str_find_drop t s j Ht), <- slice_drop by done.
  rewrite <- (str_find_drop p s i Hp). by rewrite take_drop_str.
Qed.

Lemma replace_char_length old new s :
  String.length (replace_char old new s) = String.length s.
Proof. induction s as [|a s IH]; simpl; [done | by rewrite IH]. Qed.

Lemma replace_char_get old new s n :
  String.get n (replace_char old new s)
  = (fun a => if decide (a = old) then new else a) <$> String.get n s.
Proof.
  revert n. induction s as [|a s IH]; intros n; simpl; [done|].
  destruct n as [|n]; [done | apply IH].
Qed.

Lemma replace_char_idem old new s :
  old <> new ->
  replace_char old new (replace_char old new s) = replace_char old new s.
Proof.
  intros Hne. induction s as [|a s IH]; simpl; [done|]. rewrite IH. f_equal.
  repeat case_decide; congruence.
Qed.

End text.

#[local] Arguments startswith : simpl never.
#[local] Arguments str_find : simpl never.
#[local] Arguments str_take : simpl never.
#[local] Arguments str_drop : simpl never.

(** ** Trimming *)

Section trimming.
Implicit Types (s t : string) (a : ascii).

Lemma last_char_None_cons a s : last_char (String a s) <> None.
Proof. revert a. induction s as [|b s IH]; intros a; [done | apply (IH b)]. Qed.

Lemma last_char_cons a s :
  last_char (String a s) = match last_char s with Some b => Some b | None => Some a end.
Proof.
  destruct s as [|b s]; [done|].
  change (last_char (String a (String b s))) with (last_char (String b s)).
  by destruct (last_char (String b s)) eqn:E; [|apply last_char_None_cons in E].
Qed.

Lemma last_char_None s : last_char s = None -> s = EmptyString.
Proof. destruct s as [|a s]; [done|]. by intros ?%last_char_None_cons. Qed.

Lemma lstrip_spec s :
  exists l, s = l +:+ lstrip s /\ all_space l = true
    /\ forall a, first_char (lstrip s) = Some a -> isspace a = false.
Proof.
  induction s as [|a s (l & Hs & Hl & Hf)]; simpl.
  - by exists EmptyString.
  - destruct (isspace a) eqn:E.
    + exists (String a l). simpl. rewrite E, Hl, <- Hs. by repeat split.
    + exists EmptyString. simpl. split; [done | split; [done|]]. by intros ? [= <-].
Qed.

Lemma rstrip_spec s :
  exists r, s = rstrip s +:+ r /\ all_space r = true
    /\ forall a, last_char (rstrip s) = Some a -> isspace a = false.
Proof.
  induction s as [|a s (r & Hs & Hr & Hf)]; simpl.
  - by exists EmptyString.
  - destruct (rstrip s) as [|b u] eqn:Eu; simpl.
    + destruct (isspace a) eqn:E.
      * exists (String a r). simpl in *. rewrite E, Hr. by subst r.
      * exists r. simpl in *. split; [congruence | split; [done|]].
        by intros ? [= <-].
    + exists r. simpl in *. split; [congruence | split; [done|]].
      intros c Hc. apply Hf. by destruct u.
Qed.

Lemma last_char_lstrip s a :
  last_char (lstrip s) = Some a -> last_char s = Some a.
Proof.
  induction s as [|b s IH]; simpl; [done|].
  destruct (isspace b); [|done].
  intros H. specialize (IH H). destruct s; [done | by rewrite IH].
Qed.

(** [strip] removes a run of space characters at each end, and what is
    left neither starts nor ends with one. *)
Lemma strip_spec s :
  exists l r, s = l +:+ strip s +:+ r
    /\ all_space l = true /\ all_space r = true
    /\ (forall a, first_char (strip s) = Some a -> isspace a = false)
    /\ (forall a, last_char (strip s) = Some a -> isspace a = false).
Proof.
  destruct (rstrip_spec s) as (r & Hs & Hr & Hlast).
  destruct (lstrip_spec (rstrip s)) as (l & Hu & Hl & Hfirst).
  exists l, r. unfold strip. repeat split; try done.
  - rewrite <- app_assoc_str, <- Hu. done.
  - intros a Ha. apply Hlast. by apply last_char_lstrip.
Qed.

Lemma strip_fixed s :
  (forall a, first_char s = Some a -> isspace a = false) ->
  (forall a, last_char s = Some a -> isspace a = false) ->
  strip s = s.
Proof.
  intros Hf Hl. unfold strip.
  assert (rstrip s = s) as ->.
  { clear Hf. induction s as [|a s IH]; simpl; [done|].
    rewrite last_char_cons in Hl.
    destruct (last_char s) as [b|] eqn:E.
    - rewrite IH; [by destruct s | intros c [= <-]; by apply Hl].
    - apply last_char_None in E as ->. simpl. by rewrite (Hl a eq_refl). }
  destruct s as [|a s]; simpl; [done|]. by rewrite (Hf a eq_refl).
Qed.

End trimming.

(** ** The dictionary literals *)

Section tables.
Import QifEntry.

Lemma entry_types_lookup (k : string) :
  PyStr <$> entry_types !! k = Some (classify (PyStr k))
  \/ (entry_types !! k = None /\ classify (PyStr k) = PyNone).
Proof.
  unfold entry_types, classify. simpl.
  repeat (rewrite lookup_insert; case_decide; simplify_eq;
          [left; by vm_compute|]).
  rewrite lookup_empty. right. split; [done|].
  repeat (case_decide; simplify_eq). done.
Qed.

Lemma memo_methods_diversen : memo_methods !! "Diversen" = Some _memo_diversen.
Proof. reflexivity. Qed.
Lemma memo_methods_betaalautomaat :
  memo_methods !! "Betaalautomaat" = Some _memo_geldautomaat.
Proof. reflexivity. Qed.
Lemma memo_methods_geldautomaat :
  memo_methods !! "Geldautomaat" = Some _memo_geldautomaat.
Proof. reflexivity. Qed.
Lemma memo_methods_incasso : memo_methods !! "Incasso" = Some _memo_incasso.
Proof. reflexivity. Qed.
Lemma memo_methods_internetbankieren :
  memo_methods !! "Internetbankieren" = Some _memo_internetbankieren.
Proof. reflexivity. Qed.
Lemma memo_methods_overschrijving :
  memo_methods !! "Overschrijving" = Some _memo_internetbankieren.
Proof. reflexivity. Qed.
Lemma memo_methods_verzamelbetaling :
  memo_methods !! "Verzamelbetaling" = Some _memo_verzamelbetaling.
Proof. reflexivity. Qed.

Lemma memo_methods_other (k : string) :
  k <> "Diversen" -> k <> "Betaalautomaat" -> k <> "Geldautomaat" ->
  k <> "Incasso" -> k <> "Internetbankieren" -> k <> "Overschrijving" ->
  k <> "Verzamelbetaling" ->
  memo_methods !! k = None.
Proof.
  intros. unfold memo_methods. simpl.
  repeat (rewrite lookup_insert_ne; [|done]). apply lookup_empty.
Qed.

Lemma _entry_type_classify (entry : Entry.t) :
  _entry_type entry = Ok (classify (Entry.__getitem__ entry "MutatieSoort")).
Proof.
  unfold _entry_type. destruct (Entry.__getitem__ entry "MutatieSoort") as [|k].
  - reflexivity.
  - simpl. destruct (entry_types_lookup k) as [H|[H1 H2]].
    + destruct (entry_types !! k); simpl in *; [|done].
      injection H as <-. reflexivity.
    + rewrite H1, H2. reflexivity.
Qed.

End tables.

(** ** Dispatch of the memo strategies *)

Section dispatch.
Import QifEntry.
Implicit Types (entry : Entry.t) (m o kind : string).

(** A kind of the table runs its strategy; a strategy that returns
    [None] gives the default memo. *)
Lemma memo_before_prefix_dispatch entry kind f :
  Entry.__getitem__ entry "MutatieSoort" = PyStr kind ->
  memo_methods !! kind = Some f ->
  memo_before_prefix entry =
    (memo ← try_except_KeyError
              (f (Entry.__getitem__ entry "Mededelingen")
                 (Entry.__getitem__ entry "Naam / Omschrijving"))
              (mret PyNone);
     mret (if py_is_none memo then default_memo entry else memo)).
Proof.
  intros Hk Hf. unfold memo_before_prefix. rewrite Hk. simpl. rewrite Hf. done.
Qed.

(** A kind outside the table gives the default memo. *)
Lemma memo_before_prefix_unknown entry :
  (forall kind, Entry.__getitem__ entry "MutatieSoort" = PyStr kind ->
                memo_methods !! kind = None) ->
  memo_before_prefix entry = Ok (default_memo entry).
Proof.
  intros H. unfold memo_before_prefix.
  destruct (Entry.__getitem__ entry "MutatieSoort") as [|kind] eqn:Hk; [done|].
  simpl. by rewrite (H kind eq_refl).
Qed.

(** The memo before the prefix is never [None]. *)
Lemma memo_before_prefix_text entry memo :
  memo_before_prefix entry = Ok memo -> exists body, memo = PyStr body.
Proof.
  unfold memo_before_prefix.
  destruct (try_except_KeyError _ _) as [[|s]|e]; simpl; intros [= <-]; eauto.
Qed.

(** [_memo] in terms of the memo before the prefix. *)
Lemma _memo_unfold entry :
  _memo entry =
    (memo ← memo_before_prefix entry;
     let category := classify (Entry.__getitem__ entry "MutatieSoort") in
     if py_truthy category then mret (fmt_pair category memo)
     else py_strip memo).
Proof.
  unfold _memo. destruct (memo_before_prefix entry) as [memo|e]; [|done].
  simpl. rewrite _entry_type_classify. simpl.
  by destruct (py_truthy _).
Qed.

Lemma classify_cases (kind : pyval) :
  classify kind = PyNone \/ classify kind = PyStr "ATM"
  \/ classify kind = PyStr "Transfer" \/ classify kind = PyStr "Deposit".
Proof. unfold classify. repeat case_decide; auto. Qed.

End dispatch.

(** ** The Classifier *)

(** C6: the category of an entry is ATM for the kinds Geldautomaat and
    Betaalautomaat, Transfer for Internetbankieren, Incasso and
    Verzamelbetaling, Deposit for Storting, and None for every other kind,
    an absent kind included; the lookup never raises. *)
Theorem entry_type_table (entry : Entry.t) :
  QifEntry._entry_type entry =
    Ok match Entry.__getitem__ entry "MutatieSoort" with
       | PyNone => PyNone
       | PyStr kind =>
           if decide (kind ∈ ["Geldautomaat"; "Betaalautomaat"]) then PyStr "ATM"
           else if decide (kind ∈ ["Internetbankieren"; "Incasso"; "Verzamelbetaling"])
                then PyStr "Transfer"
           else if decide (kind = "Storting") then PyStr "Deposit"
           else PyNone
       end.
Proof.
  rewrite _entry_type_classify.
  destruct (Entry.__getitem__ entry "MutatieSoort") as [|kind]; [done|].
  f_equal. unfold classify.
  repeat (case_decide; simplify_eq; try done);
    repeat match goal with
           | H : _ ∈ _ :: _ |- _ => apply elem_of_cons in H as [?|H]; simplify_eq
           | H : _ ∈ [] |- _ => by apply elem_of_nil in H
           | H : ¬ (_ ∈ _) |- _ => exfalso; apply H; set_solver
           end.
Qed.

Example entry_type_case_sensitive :
  QifEntry._entry_type (mk_entry "20140102" "5,00" "Bij" "storting" "m" "o")
  = Ok PyNone.
Proof. reflexivity. Qed.

(** ** The record value object *)

Lemma entry_init_text (row : gmap string pyval) (raw : string) :
  row !! "Bedrag (EUR)" = Some (PyStr raw) ->
  Entry.__init__ row
  = Ok {| Entry._data := <["amount" := PyStr (replace_char "," "." raw)]> row |}.
Proof.
  intros H. unfold Entry.__init__, Entry._clean_up, dict_subscript.
  rewrite H. reflexivity.
Qed.

Lemma entry_init_ok_iff (row : gmap string pyval) :
  (exists entry, Entry.__init__ row = Ok entry)
  <-> exists raw, row !! "Bedrag (EUR)" = Some (PyStr raw).
Proof.
  split.
  - intros [entry H]. unfold Entry.__init__, Entry._clean_up, dict_subscript in H.
    destruct (row !! "Bedrag (EUR)") as [[|raw]|]; try done. by exists raw.
  - intros [raw H]. rewrite (entry_init_text _ _ H). eauto.
Qed.

Lemma mk_row_init (d b ab k m o : string) :
  Entry.__init__ (mk_row d b ab k m o) = Ok (mk_entry d b ab k m o).
Proof. by apply entry_init_text. Qed.

Lemma entry_getitem_init (row : gmap string pyval) (raw k : string) :
  k <> "amount" ->
  Entry.__getitem__
    {| Entry._data := <["amount" := PyStr (replace_char "," "." raw)]> row |} k
  = dict_get row k.
Proof.
  intros Hk. unfold Entry.__getitem__, dict_get. simpl.
  by rewrite lookup_insert_ne.
Qed.

(** C3, as the code has it: a row whose amount column "Bedrag (EUR)" holds
    text constructs, and on the constructed record every column name can be
    read by subscript: a column of the row gives its value, a name absent
    from the row gives None (the key "amount", which construction adds,
    apart: it gives the normalised amount). *)
Theorem entry_construct_and_access (row : gmap string pyval) (raw : string) :
  row !! "Bedrag (EUR)" = Some (PyStr raw) ->
  exists entry,
    Entry.__init__ row = Ok entry
    /\ (forall k v, k <> "amount" -> row !! k = Some v ->
          Entry.__getitem__ entry k = v)
    /\ (forall k, k <> "amount" -> row !! k = None ->
          Entry.__getitem__ entry k = PyNone)
    /\ Entry.__getitem__ entry "amount" = PyStr (replace_char "," "." raw).
Proof.
  intros H. eexists. split; [by apply entry_init_text|].
  unfold Entry.__getitem__, dict_get. simpl.
  split; [|split].
  - intros k v Hk Hv. by rewrite lookup_insert_ne, Hv.
  - intros k Hk Hv. by rewrite lookup_insert_ne, Hv.
  - by rewrite lookup_insert_eq.
Qed.

Lemma entry_construct_and_access_witness :
  exists entry,
    Entry.__init__ (mk_row "20140102" "12,50" "Af" "Diversen" "rent" "J. Smith")
    = Ok entry
    /\ Entry.__getitem__ entry "Datum" = PyStr "20140102"
    /\ Entry.__getitem__ entry "Code" = PyNone.
Proof.
  destruct (entry_construct_and_access
              (mk_row "20140102" "12,50" "Af" "Diversen" "rent" "J. Smith")
              "12,50" eq_refl) as (entry & Hinit & Hpresent & Habsent & _).
  exists entry. split; [exact Hinit|]. split.
  - apply (Hpresent "Datum" (PyStr "20140102")); [discriminate | reflexivity].
  - apply (Habsent "Code"); [discriminate | reflexivity].
Defined.

(** C3 as stated fails: a row without the amount column does not
    construct, and a row whose amount column holds None does not either. *)
Lemma entry_construct_missing_amount :
  Entry.__init__ (delete "Bedrag (EUR)"
                    (mk_row "20140102" "12,50" "Af" "Diversen" "rent" "J. Smith"))
  = Raise KeyError
  /\ Entry.__init__ (<["Bedrag (EUR)" := PyNone]>
                       (mk_row "20140102" "12,50" "Af" "Diversen" "rent" "J. Smith"))
     = Raise AttributeError.
Proof. split; reflexivity. Qed.

(** ** Amount formatting *)

(** C9: the stored amount is the raw amount with each comma turned into a
    period, character by character and nothing else changed; the signed
    amount is that text after "+" when the direction is "Bij" and after
    "-" for every other direction, an absent one included. *)
Theorem amount_format_signed (row : gmap string pyval) (raw : string) :
  row !! "Bedrag (EUR)" = Some (PyStr raw) ->
  exists entry amount,
    Entry.__init__ row = Ok entry
    /\ Entry.__getitem__ entry "amount" = PyStr amount
    /\ amount = replace_char "," "." raw
    /\ String.length amount = String.length raw
    /\ (forall n, String.get n amount
                  = (fun a => if decide (a = ","%char) then "."%char else a)
                      <$> String.get n raw)
    /\ QifEntry._amount_format entry
       = Ok ((if decide (dict_get row "Af Bij" = PyStr "Bij") then "+" else "-")
             +:+ amount).
Proof.
  intros H. eexists _, (replace_char "," "." raw).
  split; [by apply entry_init_text|].
  split; [unfold Entry.__getitem__, dict_get; simpl; by rewrite lookup_insert_eq|].
  split; [done|]. split; [apply replace_char_length|].
  split; [apply replace_char_get|].
  unfold QifEntry._amount_format. rewrite entry_getitem_init by done.
  unfold Entry.__getitem__ at 1 2, dict_get at 2 3. simpl. rewrite lookup_insert_eq.
  unfold py_eq_str. simpl. by case_bool_decide; case_decide.
Qed.

Lemma amount_format_signed_witness :
  exists entry,
    Entry.__init__ (mk_row "20140102" "1.234,56" "Bij" "Loon" "salary" "ACME")
    = Ok entry
    /\ QifEntry._amount_format entry = Ok "+1.234.56".
Proof.
  destruct (amount_format_signed
              (mk_row "20140102" "1.234,56" "Bij" "Loon" "salary" "ACME")
              "1.234,56" eq_refl)
    as (entry & amount & Hinit & _ & Hamount & _ & _ & Hfmt).
  exists entry. split; [exact Hinit|]. rewrite Hfmt, Hamount. reflexivity.
Defined.

Example amount_format_debit_by_default :
  QifEntry._amount_format (mk_entry "20140102" "3,10" "Onbekend" "Diversen" "m" "o")
  = Ok "-3.10".
Proof. reflexivity. Qed.

(** ** The ATM strategy *)

(** C5, as the code has it: for the kinds Geldautomaat and Betaalautomaat
    with a text counterparty, the memo before the prefix is the whole
    counterparty text when that text starts with "ING>", "ING BANK>" or
    "OPL. CHIPKNIP", whatever the narrative holds; otherwise, with a text
    narrative, it is the first 32 characters of the narrative. *)
Theorem atm_memo (entry : Entry.t) (kind o : string) :
  Entry.__getitem__ entry "MutatieSoort" = PyStr kind ->
  kind = "Geldautomaat" \/ kind = "Betaalautomaat" ->
  Entry.__getitem__ entry "Naam / Omschrijving" = PyStr o ->
  let has_prefix := startswith "ING>" o || startswith "ING BANK>" o
                    || startswith "OPL. CHIPKNIP" o in
  (has_prefix = true -> QifEntry.memo_before_prefix entry = Ok (PyStr o))
  /\ (forall m,
        has_prefix = false ->
        Entry.__getitem__ entry "Mededelingen" = PyStr m ->
        QifEntry.memo_before_prefix entry = Ok (PyStr (str_take 32 m))
        /\ str_take 32 m +:+ str_drop 32 m = m
        /\ String.length (str_take 32 m) = Nat.min 32 (String.length m)).
Proof.
  intros Hk Hkind Ho has_prefix.
  rewrite (memo_before_prefix_dispatch entry kind QifEntry._memo_geldautomaat Hk)
    by (destruct Hkind as [-> | ->]; reflexivity).
  rewrite Ho. unfold QifEntry._memo_geldautomaat. subst has_prefix. simpl.
  assert (Htake : forall m,
            str_take 32 m +:+ str_drop 32 m = m
            /\ String.length (str_take 32 m) = Nat.min 32 (String.length m)).
  { intros m. split; [apply take_drop_str|].
    destruct (Nat.le_ge_cases 32 (String.length m)) as [H|H].
    - rewrite take_length_str by done. lia.
    - rewrite take_all_str by done. lia. }
  destruct (startswith "ING>" o); simpl; [by split|].
  destruct (startswith "ING BANK>" o); simpl; [by split|].
  destruct (startswith "OPL. CHIPKNIP" o); simpl; [by split|].
  split; [done|]. intros m _ Hm. rewrite Hm. simpl. split; [done | apply Htake].
Qed.

Lemma atm_memo_witness :
  QifEntry.memo_before_prefix
    (mk_entry "20140102" "20,00" "Af" "Geldautomaat" "02-01-2014 12:00 pas 001" "ING> foo")
  = Ok (PyStr "ING> foo")
  /\ QifEntry.memo_before_prefix
       (mk_entry "20140102" "20,00" "Af" "Betaalautomaat"
          "abcdefghijklmnopqrstuvwxyzABCDEFGHIJKLMNOPQRSTUVWX" "Supermarkt")
     = Ok (PyStr "abcdefghijklmnopqrstuvwxyzABCDEF").
Proof.
  split.
  - destruct (atm_memo
                (mk_entry "20140102" "20,00" "Af" "Geldautomaat"
                   "02-01-2014 12:00 pas 001" "ING> foo")
                "Geldautomaat" "ING> foo" eq_refl (or_introl eq_refl) eq_refl)
      as (H & _).
    exact (H eq_refl).
  - destruct (atm_memo
                (mk_entry "20140102" "20,00" "Af" "Betaalautomaat"
                   "abcdefghijklmnopqrstuvwxyzABCDEFGHIJKLMNOPQRSTUVWX" "Supermarkt")
                "Betaalautomaat" "Supermarkt" eq_refl (or_intror eq_refl) eq_refl)
      as (_ & H).
    exact (proj1 (H "abcdefghijklmnopqrstuvwxyzABCDEFGHIJKLMNOPQRSTUVWX"
                    eq_refl eq_refl)).
Defined.

(** C5 as stated fails on a record with an absent field: an ATM row whose
    counterparty has none of the prefixes and whose narrative is absent
    raises TypeError, and an ATM row whose counterparty is absent raises
    AttributeError. *)
Lemma atm_memo_absent_field :
  QifEntry.memo_before_prefix
    {| Entry._data :=
         <["amount" := PyStr "9.99"]>
           (row_without_narrative "Geldautomaat" "Supermarkt") |}
  = Raise TypeError
  /\ process_row (row_without_narrative "Geldautomaat" "Supermarkt")
     = Raise TypeError
  /\ process_row
       (delete "Naam / Omschrijving"
          (mk_row "20140102" "20,00" "Af" "Betaalautomaat" "pas 001" "Supermarkt"))
     = Raise AttributeError.
Proof. repeat split; reflexivity. Qed.

(** ** Memo post-processing *)

(** C7: when the entry has a category, the final memo is the category
    label, one space and the memo before the prefix; when it has none, the
    final memo is the memo before the prefix with the space characters at
    both ends removed. *)
Theorem memo_postprocessing (entry : Entry.t) (memo category : pyval) :
  QifEntry.memo_before_prefix entry = Ok memo ->
  QifEntry._entry_type entry = Ok category ->
  exists body final,
    memo = PyStr body
    /\ QifEntry._memo entry = Ok final
    /\ match category with
       | PyStr label => final = label +:+ " " +:+ body
       | PyNone =>
           final = strip body
           /\ exists l r,
                body = l +:+ final +:+ r
                /\ all_space l = true /\ all_space r = true
                /\ (forall a, first_char final = Some a -> isspace a = false)
                /\ (forall a, last_char final = Some a -> isspace a = false)
       end.
Proof.
  intros Hmemo Hcat. destruct (memo_before_prefix_text _ _ Hmemo) as [body ->].
  rewrite _entry_type_classify in Hcat. injection Hcat as <-.
  rewrite _memo_unfold, Hmemo. simpl.
  destruct (classify_cases (Entry.__getitem__ entry "MutatieSoort"))
    as [H|[H|[H|H]]]; rewrite H; simpl; eexists body, _;
    (split; [done|]); (split; [done|]); try done.
  split; [done|]. apply strip_spec.
Qed.

Lemma memo_postprocessing_witness :
  QifEntry._memo (mk_entry "20140102" "100,00" "Bij" "Storting" "X" "kantoor")
  = Ok "Deposit X kantoor"
  /\ QifEntry._memo (mk_entry "20140102" "100,00" "Bij" "Loon" "  salary" "ACME ")
     = Ok "salary ACME".
Proof.
  split.
  - destruct (memo_postprocessing
                (mk_entry "20140102" "100,00" "Bij" "Storting" "X" "kantoor")
                (PyStr "X kantoor") (PyStr "Deposit") eq_refl eq_refl)
      as (body & final & Hbody & Hfinal & Hpost).
    injection Hbody as <-. rewrite Hfinal, Hpost. reflexivity.
  - destruct (memo_postprocessing
                (mk_entry "20140102" "100,00" "Bij" "Loon" "  salary" "ACME ")
                (PyStr "  salary ACME ") PyNone eq_refl eq_refl)
      as (body & final & Hbody & Hfinal & Hpost & _).
    injection Hbody as <-. rewrite Hfinal, Hpost. reflexivity.
Defined.

(** A deposit has no strategy of its own: its memo is the label before
    both narrative fields. *)
Lemma memo_storting (entry : Entry.t) :
  Entry.__getitem__ entry "MutatieSoort" = PyStr "Storting" ->
  QifEntry._memo entry
  = Ok ("Deposit " +:+ py_str (Entry.__getitem__ entry "Mededelingen")
        +:+ " " +:+ py_str (Entry.__getitem__ entry "Naam / Omschrijving")).
Proof.
  intros Hk. rewrite _memo_unfold, memo_before_prefix_unknown.
  - rewrite Hk. reflexivity.
  - intros kind. rewrite Hk. by intros [= <-].
Qed.

(** ** The strategies on text fields *)

Section strategies.
Import QifEntry.
Implicit Types (m o : string).

Lemma _memo_diversen_text m o :
  _memo_diversen (PyStr m) (PyStr o) = Ok (PyStr (str_take 64 m)).
Proof. reflexivity. Qed.

Lemma _memo_geldautomaat_text m o :
  _memo_geldautomaat (PyStr m) (PyStr o)
  = Ok (PyStr (if startswith "ING>" o || startswith "ING BANK>" o
                  || startswith "OPL. CHIPKNIP" o
               then o else str_take 32 m)).
Proof.
  unfold _memo_geldautomaat. simpl.
  destruct (startswith "ING>" o); simpl; [done|].
  destruct (startswith "ING BANK>" o); simpl; [done|].
  destruct (startswith "OPL. CHIPKNIP" o); simpl; done.
Qed.

Lemma _memo_incasso_text m o :
  _memo_incasso (PyStr m) (PyStr o)
  = if startswith "SEPA Incasso" o || startswith "SEPA Incasso" m then
      match str_find "Naam: " m, str_find "Kenmerk: " m with
      | None, _ => Raise (Exception (PyStr m) (PyStr o))
      | Some _, None => Raise ValueError
      | Some i, Some j => Ok (PyStr (str_slice (i + 6) j m))
      end
    else Ok PyNone.
Proof.
  unfold _memo_incasso. simpl.
  destruct (startswith "SEPA Incasso" o); simpl;
    [|destruct (startswith "SEPA Incasso" m); simpl; [|done]].
  all: destruct (str_find "Naam: " m); simpl; [|done].
  all: destruct (str_find "Kenmerk: " m); simpl; done.
Qed.

Lemma _memo_verzamelbetaling_text m o :
  _memo_verzamelbetaling (PyStr m) (PyStr o)
  = match str_find "Naam: " m, str_find "Kenmerk: " m with
    | None, _ => Ok PyNone
    | Some _, None => Raise ValueError
    | Some i, Some j => Ok (PyStr (str_slice (i + 6) j m))
    end.
Proof.
  unfold _memo_verzamelbetaling. simpl.
  destruct (str_find "Naam: " m) eqn:E; simpl; [|done].
  destruct (str_find "Kenmerk: " m); done.
Qed.

Lemma _memo_internetbankieren_text m o :
  _memo_internetbankieren (PyStr m) (PyStr o)
  = match str_find "Naam: " m with
    | None => Ok PyNone
    | Some i =>
        match str_find (if occurs "Omschrijving:" m then "Omschrijving: "
                        else "IBAN: ") m with
        | None => Ok PyNone
        | Some j => Ok (PyStr (str_slice (i + 6) j m))
        end
    end.
Proof.
  unfold _memo_internetbankieren, occurs. simpl.
  destruct (str_find "Naam: " m); simpl; [|done].
  destruct (bool_decide _); simpl;
    match goal with |- context [str_find ?x m] => destruct (str_find x m) end;
    done.
Qed.

End strategies.

(** ** The Incasso strategy *)

(** C4, as the code has it: for the kind Incasso with a text narrative
    and a text counterparty, (1) when neither the
    counterparty text nor the narrative starts with "SEPA Incasso" the
    strategy returns None and the memo is the default one; (2) when one of
    them does and "Naam: " is absent from the narrative, the exception
    carrying both fields is raised; (3) when one of them does and both
    markers occur, the memo before the prefix is the slice from six
    characters after the first "Naam: " to the first "Kenmerk: ", which,
    when the markers come in that order, is the text between them. *)
Theorem incasso_memo (entry : Entry.t) (m o : string) :
  Entry.__getitem__ entry "MutatieSoort" = PyStr "Incasso" ->
  Entry.__getitem__ entry "Mededelingen" = PyStr m ->
  Entry.__getitem__ entry "Naam / Omschrijving" = PyStr o ->
  let applies := startswith "SEPA Incasso" o || startswith "SEPA Incasso" m in
  (applies = false ->
     QifEntry._memo_incasso (PyStr m) (PyStr o) = Ok PyNone
     /\ QifEntry.memo_before_prefix entry = Ok (PyStr (m +:+ " " +:+ o)))
  /\ (applies = true -> str_find "Naam: " m = None ->
        QifEntry.memo_before_prefix entry = Raise (Exception (PyStr m) (PyStr o)))
  /\ (forall i j,
        applies = true ->
        str_find "Naam: " m = Some i -> str_find "Kenmerk: " m = Some j ->
        QifEntry.memo_before_prefix entry = Ok (PyStr (str_slice (i + 6) j m))
        /\ (i + 6 <= j ->
            m = str_take i m +:+ "Naam: " +:+ str_slice (i + 6) j m
                +:+ "Kenmerk: " +:+ str_drop (j + 9) m)).
Proof.
  intros Hk Hm Ho applies.
  rewrite (memo_before_prefix_dispatch entry _ _ Hk memo_methods_incasso).
  unfold default_memo. rewrite Hm, Ho, _memo_incasso_text. fold applies.
  split; [|split].
  - intros ->. done.
  - intros -> ->. done.
  - intros i j -> Hi Hj. rewrite Hi, Hj. split; [done|].
    intros Hle. by apply (between_markers "Naam: " "Kenmerk: " m i j).
Qed.

Lemma incasso_memo_witness :
  QifEntry.memo_before_prefix
    (mk_entry "20140102" "9,99" "Af" "Incasso"
       "SEPA Incasso Naam: Jane Doe Kenmerk: 123" "Verzekeraar")
  = Ok (PyStr "Jane Doe ")
  /\ QifEntry.memo_before_prefix
       (mk_entry "20140102" "9,99" "Af" "Incasso" "SEPA Incasso zonder naam" "Verzekeraar")
     = Raise (Exception (PyStr "SEPA Incasso zonder naam") (PyStr "Verzekeraar"))
  /\ QifEntry.memo_before_prefix
       (mk_entry "20140102" "9,99" "Af" "Incasso" "Naam: Jane Doe Kenmerk: 123" "Verzekeraar")
     = Ok (PyStr "Naam: Jane Doe Kenmerk: 123 Verzekeraar").
Proof.
  split; [|split].
  - destruct (incasso_memo
                (mk_entry "20140102" "9,99" "Af" "Incasso"
                   "SEPA Incasso Naam: Jane Doe Kenmerk: 123" "Verzekeraar")
                "SEPA Incasso Naam: Jane Doe Kenmerk: 123" "Verzekeraar"
                eq_refl eq_refl eq_refl) as (_ & _ & H).
    exact (proj1 (H 13 28 eq_refl eq_refl eq_refl)).
  - destruct (incasso_memo
                (mk_entry "20140102" "9,99" "Af" "Incasso"
                   "SEPA Incasso zonder naam" "Verzekeraar")
                "SEPA Incasso zonder naam" "Verzekeraar"
                eq_refl eq_refl eq_refl) as (_ & H & _).
    exact (H eq_refl eq_refl).
  - destruct (incasso_memo
                (mk_entry "20140102" "9,99" "Af" "Incasso"
                   "Naam: Jane Doe Kenmerk: 123" "Verzekeraar")
                "Naam: Jane Doe Kenmerk: 123" "Verzekeraar"
                eq_refl eq_refl eq_refl) as (H & _ & _).
    exact (proj2 (H eq_refl)).
Defined.

(** C4 as stated fails on a record with an absent field: an Incasso row
    whose narrative is absent and whose counterparty does not start with
    "SEPA Incasso" does not meet the precondition and raises AttributeError
    where the default memo is claimed; an Incasso row whose counterparty is
    absent and whose narrative starts with "SEPA Incasso" and has both
    markers raises AttributeError where the text between them is claimed. *)
Lemma incasso_memo_absent_field :
  QifEntry.memo_before_prefix
    {| Entry._data :=
         <["amount" := PyStr "9.99"]>
           (row_without_narrative "Incasso" "Verzekeraar") |}
  = Raise AttributeError
  /\ process_row (row_without_narrative "Incasso" "Verzekeraar")
     = Raise AttributeError
  /\ process_row
       (delete "Naam / Omschrijving"
          (mk_row "20140102" "9,99" "Af" "Incasso"
             "SEPA Incasso Naam: Jane Doe Kenmerk: 123" "Verzekeraar"))
     = Raise AttributeError.
Proof. repeat split; reflexivity. Qed.

(** ** The Internetbankieren strategy *)

Lemma occurs_prefix (p t s : string) :
  occurs (p +:+ t) s = true -> occurs p s = true.
Proof.
  unfold occurs. rewrite !bool_decide_eq_true. intros [i Hi].
  destruct (str_find_split _ _ _ Hi) as [Hs _].
  apply (str_find_occurs p s (str_take i s)
           (t +:+ str_drop (i + String.length (p +:+ t)) s)).
  by rewrite app_assoc_str in Hs.
Qed.

(** Where "Omschrijving:" only occurs followed by a space, the strategy
    does what the specification says. *)
Lemma internetbankieren_agrees (m o : string) :
  (occurs "Omschrijving:" m = true -> occurs "Omschrijving: " m = true) ->
  QifEntry._memo_internetbankieren (PyStr m) (PyStr o)
  = Ok (internetbankieren_claimed m).
Proof.
  intros H. rewrite _memo_internetbankieren_text. unfold internetbankieren_claimed.
  destruct (str_find "Naam: " m) as [i|]; [|done].
  destruct (occurs "Omschrijving:" m) eqn:E.
  - specialize (H eq_refl). unfold occurs in H. apply bool_decide_eq_true in H as [j Hj].
    by rewrite Hj.
  - destruct (str_find "Omschrijving: " m) as [j|] eqn:Ej.
    + assert (occurs "Omschrijving:" m = true); [|congruence].
      apply (occurs_prefix "Omschrijving:" " "). unfold occurs.
      apply bool_decide_eq_true. simpl. rewrite Ej. eauto.
    + by destruct (str_find "IBAN: " m).
Qed.

(** C8 at a narrative in which "Omschrijving:" is not followed by a space:
    "Naam: " and "IBAN: " both occur and "Omschrijving: " does not, so the
    memo would be the text up to "IBAN: "; the strategy returns None and the
    default memo is used. *)
Theorem internetbankieren_marker_mismatch :
  let narrative := "Naam: Bob Omschrijving:huur IBAN: NL00" in
  str_find "Naam: " narrative = Some 0
  /\ str_find "Omschrijving: " narrative = None
  /\ str_find "IBAN: " narrative = Some 28
  /\ internetbankieren_claimed narrative = PyStr "Bob Omschrijving:huur "
  /\ QifEntry._memo_internetbankieren (PyStr narrative) (PyStr "Bob") = Ok PyNone
  /\ QifEntry.memo_before_prefix
       (mk_entry "20140102" "650,00" "Af" "Overschrijving" narrative "Bob")
     = Ok (PyStr "Naam: Bob Omschrijving:huur IBAN: NL00 Bob").
Proof. repeat split; reflexivity. Qed.

Example internetbankieren_omschrijving :
  QifEntry.memo_before_prefix
    (mk_entry "20140102" "650,00" "Af" "Internetbankieren"
       "Naam: Bob Omschrijving: huur IBAN: NL00" "Bob")
  = Ok (PyStr "Bob ").
Proof. reflexivity. Qed.

Example internetbankieren_iban :
  QifEntry.memo_before_prefix
    (mk_entry "20140102" "650,00" "Af" "Overschrijving" "Naam: Bob IBAN: NL00" "Bob")
  = Ok (PyStr "Bob ").
Proof. reflexivity. Qed.

(** ** Which rows raise *)

Section raising.
Import QifEntry.
Implicit Types (row : gmap string pyval) (raw m o : string).

Lemma memo_methods_cases (k : string) :
  (k = "Diversen" \/ k = "Betaalautomaat" \/ k = "Geldautomaat" \/ k = "Incasso"
   \/ k = "Internetbankieren" \/ k = "Overschrijving" \/ k = "Verzamelbetaling")
  \/ memo_methods !! k = None.
Proof.
  destruct (decide (k = "Diversen")); [tauto|].
  destruct (decide (k = "Betaalautomaat")); [tauto|].
  destruct (decide (k = "Geldautomaat")); [tauto|].
  destruct (decide (k = "Incasso")); [tauto|].
  destruct (decide (k = "Internetbankieren")); [tauto|].
  destruct (decide (k = "Overschrijving")); [tauto|].
  destruct (decide (k = "Verzamelbetaling")); [tauto|].
  right. by apply memo_methods_other.
Qed.

Lemma _amount_format_init row raw :
  row !! "Bedrag (EUR)" = Some (PyStr raw) ->
  exists signed,
    _amount_format
      {| Entry._data := <["amount" := PyStr (replace_char "," "." raw)]> row |}
    = Ok signed.
Proof.
  intros _. unfold _amount_format.
  assert (Entry.__getitem__
            {| Entry._data := <["amount" := PyStr (replace_char "," "." raw)]> row |}
            "amount" = PyStr (replace_char "," "." raw)) as ->.
  { unfold Entry.__getitem__, dict_get. simpl. by rewrite lookup_insert_eq. }
  destruct (py_eq_str _ _); simpl; eauto.
Qed.

(** With a text amount, a row raises exactly what its memo raises. *)
Lemma process_row_memo row raw :
  row !! "Bedrag (EUR)" = Some (PyStr raw) ->
  let entry :=
    {| Entry._data := <["amount" := PyStr (replace_char "," "." raw)]> row |} in
  match memo_before_prefix entry with
  | Ok _ => exists q, process_row row = Ok q
  | Raise e => process_row row = Raise e
  end.
Proof.
  intros H entry. unfold process_row. rewrite (entry_init_text _ _ H). simpl.
  fold entry. unfold QifEntry.__init__, _processing.
  destruct (_amount_format_init row raw H) as [signed Hs].
  fold entry in Hs. rewrite Hs. simpl.
  rewrite _entry_type_classify. simpl. rewrite _memo_unfold.
  destruct (memo_before_prefix entry) as [memo|e] eqn:E; [|done].
  destruct (memo_before_prefix_text _ _ E) as [body ->]. simpl.
  destruct (py_truthy _); simpl; eauto.
Qed.

(** The memo before the prefix on text fields, by kind. *)
Lemma memo_before_prefix_raises entry m o :
  Entry.__getitem__ entry "Mededelingen" = PyStr m ->
  Entry.__getitem__ entry "Naam / Omschrijving" = PyStr o ->
  let kind := Entry.__getitem__ entry "MutatieSoort" in
  (incasso_malformed kind m o = true ->
     memo_before_prefix entry = Raise (Exception (PyStr m) (PyStr o)))
  /\ (kenmerk_missing kind m o = true ->
        memo_before_prefix entry = Raise ValueError)
  /\ (incasso_malformed kind m o = false -> kenmerk_missing kind m o = false ->
        exists memo, memo_before_prefix entry = Ok memo).
Proof.
  intros Hm Ho kind. unfold incasso_malformed, kenmerk_missing, sepa_incasso, occurs.
  destruct kind as [|k] eqn:Hk; subst kind.
  { simpl. repeat split; try done. intros _ _.
    rewrite memo_before_prefix_unknown by (intros ?; by rewrite Hk). eauto. }
  destruct (memo_methods_cases k) as [Hin|Hout].
  2: { rewrite (memo_before_prefix_unknown entry)
         by (intros ?; rewrite Hk; by intros [= <-]).
       assert (k <> "Incasso") by (intros ->; by rewrite memo_methods_incasso in Hout).
       assert (k <> "Verzamelbetaling")
         by (intros ->; by rewrite memo_methods_verzamelbetaling in Hout).
       rewrite (bool_decide_eq_false_2 (PyStr k = PyStr "Incasso")) by congruence.
       rewrite (bool_decide_eq_false_2 (PyStr k = PyStr "Verzamelbetaling"))
         by congruence.
       simpl. repeat split; try done; eauto. }
  destruct Hin as [->|[->|[->|[->|[->|[->| ->]]]]]].
  all: erewrite (memo_before_prefix_dispatch entry _ _ Hk) by reflexivity.
  all: rewrite Hm, Ho.
  all: rewrite ?_memo_diversen_text, ?_memo_geldautomaat_text, ?_memo_incasso_text,
         ?_memo_internetbankieren_text, ?_memo_verzamelbetaling_text.
  all: repeat match goal with
              | |- context [startswith ?p ?s || startswith ?p ?t] =>
                  destruct (startswith p s || startswith p t); simpl
              | |- context [str_find ?p ?s] => destruct (str_find p s); simpl
              end.
  all: repeat (case_bool_decide; simplify_eq); simpl.
  all: try match goal with
           | H : ¬ is_Some (Some _) |- _ => exfalso; apply H; eauto
           | H : is_Some None |- _ => by destruct H
           end.
  all: repeat split; try done; eauto.
Qed.

End raising.

(** C2, as the code has it: for a row whose amount, narrative and
    counterparty fields are text, and outside the case in which a strategy
    that found "Naam: " looks up an absent "Kenmerk: ", processing raises
    exactly when the kind is Incasso, the "SEPA Incasso" precondition holds
    and "Naam: " is absent from the narrative; the exception then carries
    both fields, and [main] raises it for the batch.  An unknown or absent
    kind, an unmet precondition, an absent date or direction do not raise. *)
Theorem raises_iff_incasso_malformed (row : gmap string pyval) (raw m o : string) :
  row !! "Bedrag (EUR)" = Some (PyStr raw) ->
  row !! "Mededelingen" = Some (PyStr m) ->
  row !! "Naam / Omschrijving" = Some (PyStr o) ->
  let kind := dict_get row "MutatieSoort" in
  kenmerk_missing kind m o = false ->
  (raises (process_row row) <-> incasso_malformed kind m o = true)
  /\ (incasso_malformed kind m o = true ->
      process_row row = Raise (Exception (PyStr m) (PyStr o))
      /\ forall rest number,
           main (row :: rest) 1 number = Raise (Exception (PyStr m) (PyStr o))).
Proof.
  intros Hraw Hm Ho kind Hken.
  pose proof (process_row_memo row raw Hraw) as Hrow. simpl in Hrow.
  set (entry := {| Entry._data := _ |}) in Hrow.
  assert (Hm' : Entry.__getitem__ entry "Mededelingen" = PyStr m).
  { unfold entry. rewrite entry_getitem_init by done. unfold dict_get. by rewrite Hm. }
  assert (Ho' : Entry.__getitem__ entry "Naam / Omschrijving" = PyStr o).
  { unfold entry. rewrite entry_getitem_init by done. unfold dict_get. by rewrite Ho. }
  assert (Hk' : Entry.__getitem__ entry "MutatieSoort" = kind).
  { unfold entry. by rewrite entry_getitem_init. }
  destruct (memo_before_prefix_raises entry m o Hm' Ho') as (Hmal & _ & Hok).
  rewrite Hk' in Hmal, Hok.
  assert (Hraise : incasso_malformed kind m o = true ->
                   process_row row = Raise (Exception (PyStr m) (PyStr o))).
  { intros Hc. by rewrite (Hmal Hc) in Hrow. }
  split; [split|].
  - destruct (incasso_malformed kind m o) eqn:Hc; [done|].
    destruct (Hok eq_refl Hken) as [memo Hmemo]. rewrite Hmemo in Hrow.
    destruct Hrow as [q ->]. done.
  - intros Hc. by rewrite (Hraise Hc).
  - intros Hc. split; [by apply Hraise|]. intros rest number.
    specialize (Hraise Hc). unfold process_row in Hraise.
    unfold main. simpl. destruct (Entry.__init__ row) as [e|x]; simpl in *.
    + unfold QifEntries.add_entry. by rewrite Hraise.
    + by injection Hraise as ->.
Qed.

Lemma raises_iff_incasso_malformed_witness :
  process_row (mk_row "20140102" "9,99" "Af" "Incasso" "SEPA Incasso zonder naam" "Verzekeraar")
  = Raise (Exception (PyStr "SEPA Incasso zonder naam") (PyStr "Verzekeraar"))
  /\ ~ raises (process_row (mk_row "20140102" "9,99" "Af" "Onbekend" "tekst" "Iemand")).
Proof.
  split.
  - apply (raises_iff_incasso_malformed
             (mk_row "20140102" "9,99" "Af" "Incasso" "SEPA Incasso zonder naam"
                "Verzekeraar")
             "9,99" "SEPA Incasso zonder naam" "Verzekeraar"
             eq_refl eq_refl eq_refl eq_refl).
    reflexivity.
  - intros H.
    apply (raises_iff_incasso_malformed
             (mk_row "20140102" "9,99" "Af" "Onbekend" "tekst" "Iemand")
             "9,99" "tekst" "Iemand" eq_refl eq_refl eq_refl eq_refl) in H.
    discriminate H.
Defined.

(** C2 as stated fails: the rows below raise and are not the malformed
    Incasso case.  An Incasso and a Verzamelbetaling row with "Naam: " and
    without "Kenmerk: " raise ValueError; a Diversen row without narrative
    raises TypeError. *)
Lemma raises_without_incasso_malformed :
  process_row (mk_row "20140102" "9,99" "Af" "Incasso" "SEPA Incasso Naam: Jane Doe" "Verzekeraar")
  = Raise ValueError
  /\ incasso_malformed (PyStr "Incasso") "SEPA Incasso Naam: Jane Doe" "Verzekeraar"
     = false
  /\ process_row (mk_row "20140102" "9,99" "Af" "Verzamelbetaling" "Naam: Jane Doe" "Werkgever")
     = Raise ValueError
  /\ process_row (delete "Mededelingen"
                    (mk_row "20140102" "9,99" "Af" "Diversen" "tekst" "Iemand"))
     = Raise TypeError.
Proof. repeat split; reflexivity. Qed.

(** ** Row-range selection *)

Section selection.
Implicit Types (rows : list (gmap string pyval)) (qs : list QifEntry.t)
               (c start n : Z) (qif : QifEntries.t).

Lemma mapM_process_cons r rows qs :
  mapM process_row (r :: rows) = Ok qs ->
  exists entry q qs',
    Entry.__init__ r = Ok entry /\ QifEntry.__init__ entry = Ok q
    /\ mapM process_row rows = Ok qs' /\ qs = q :: qs'.
Proof.
  change (mapM process_row (r :: rows))
    with (y ← process_row r; k ← mapM process_row rows; mret (y :: k)).
  destruct (process_row r) as [q|] eqn:Hr; [|done]. simpl.
  destruct (mapM process_row rows) as [qs'|]; [|done]. simpl.
  intros [= <-]. unfold process_row in Hr.
  destruct (Entry.__init__ r) as [entry|]; [|done].
  by exists entry, q, qs'.
Qed.

(** Without a limit that counts, every row numbered [start] or more is
    added, up to the end of the input. *)
Lemma main_loop_unlimited rows c start number qif qs :
  number = None \/ number = Some 0%Z ->
  mapM process_row rows = Ok qs ->
  main_loop rows c start number qif
  = Ok {| QifEntries._entries :=
            QifEntries._entries qif ++ drop (Z.to_nat (start - c)) qs |}.
Proof.
  intros Hnum. revert c qif qs.
  induction rows as [|r rows IH]; intros c qif qs Hqs.
  - injection Hqs as <-. simpl. rewrite drop_nil, app_nil_r. by destruct qif.
  - apply mapM_process_cons in Hqs as (entry & q & qs' & He & Hq & Hqs' & ->).
    simpl. rewrite He. simpl. rewrite Z.geb_leb.
    destruct (Z.leb_spec start c) as [Hle|Hlt].
    + unfold QifEntries.add_entry. rewrite Hq. simpl.
      assert (stop_after number c start = false) as ->
          by (by destruct Hnum as [-> | ->]).
      rewrite (IH _ _ _ Hqs'). simpl.
      replace (Z.to_nat (start - (c + 1))) with 0 by lia.
      replace (Z.to_nat (start - c)) with 0 by lia.
      simpl. by rewrite <- app_assoc.
    + rewrite (IH _ _ _ Hqs').
      replace (Z.to_nat (start - c)) with (S (Z.to_nat (start - (c + 1)))) by lia.
      done.
Qed.

(** With a limit [n] that counts, the loop stops after adding the row
    numbered [start + n] (or the first row, when that number is behind
    it): rows are added until one is past [start + n - 1], that row
    included. *)
Lemma main_loop_limited rows c start n qif qs :
  n <> 0%Z ->
  mapM process_row rows = Ok qs ->
  main_loop rows c start (Some n) qif
  = Ok {| QifEntries._entries :=
            QifEntries._entries qif
            ++ take (Z.to_nat (Z.max 1 (start + n - Z.max c start + 1)))
                    (drop (Z.to_nat (start - c)) qs) |}.
Proof.
  intros Hn. revert c qif qs.
  induction rows as [|r rows IH]; intros c qif qs Hqs.
  - injection Hqs as <-. simpl. rewrite drop_nil, take_nil, app_nil_r.
    by destruct qif.
  - apply mapM_process_cons in Hqs as (entry & q & qs' & He & Hq & Hqs' & ->).
    simpl. rewrite He. simpl. rewrite Z.geb_leb.
    destruct (Z.leb_spec start c) as [Hle|Hlt].
    + unfold QifEntries.add_entry. rewrite Hq. simpl.
      replace (Z.to_nat (start - c)) with 0 by lia. simpl.
      rewrite Z.gtb_ltb. destruct (Z.eqb_spec n 0) as [|_]; [done|]. simpl.
      destruct (Z.ltb_spec (start + n - 1) c) as [Hstop|Hgo].
      * by replace (Z.to_nat (Z.max 1 (start + n - Z.max c start + 1))) with 1 by lia.
      * rewrite (IH _ _ _ Hqs'). simpl.
        replace (Z.to_nat (start - (c + 1))) with 0 by lia.
        replace (Z.to_nat (Z.max 1 (start + n - Z.max c start + 1)))
          with (S (Z.to_nat (Z.max 1 (start + n - Z.max (c + 1) start + 1))))
          by lia.
        simpl. by rewrite <- app_assoc.
    + rewrite (IH _ _ _ Hqs').
      replace (Z.to_nat (start - c)) with (S (Z.to_nat (start - (c + 1)))) by lia.
      replace (Z.max (c + 1) start) with (Z.max c start) by lia.
      done.
Qed.

End selection.

Lemma main_loop_zero (rows : list (gmap string pyval)) (c start : Z)
    (qif : QifEntries.t) :
  main_loop rows c start (Some 0%Z) qif = main_loop rows c start None qif.
Proof.
  revert c qif. induction rows as [|r rows IH]; intros c qif; simpl; [done|].
  destruct (Entry.__init__ r) as [entry|]; simpl; [|done].
  destruct (c >=? start)%Z; [|apply IH].
  destruct (QifEntries.add_entry qif entry) as [qif'|]; simpl; [apply IH | done].
Qed.

(** C1 on the code: of five rows that all convert, [start = 3] and
    [number = 2] put three rows in the batch, the third, fourth and fifth,
    in that order: the loop stops only after adding the row past
    [start + number - 1]. *)
Theorem range_3_2_of_five_rows (r1 r2 r3 r4 r5 : gmap string pyval)
    (q1 q2 q3 q4 q5 : QifEntry.t) :
  mapM process_row [r1; r2; r3; r4; r5] = Ok [q1; q2; q3; q4; q5] ->
  main_loop [r1; r2; r3; r4; r5] 1 3 (Some 2%Z) QifEntries.__init__
  = Ok {| QifEntries._entries := [q3; q4; q5] |}.
Proof.
  intros H. by rewrite (main_loop_limited _ 1 3 2 _ _ ltac:(done) H).
Qed.

Lemma range_3_2_of_five_rows_witness :
  main_loop five_rows 1 3 (Some 2%Z) QifEntries.__init__
  = Ok {| QifEntries._entries :=
            [coffee_block "20140103"; coffee_block "20140104";
             coffee_block "20140105"] |}.
Proof.
  apply (range_3_2_of_five_rows _ _ _ _ _
           (coffee_block "20140101") (coffee_block "20140102")
           (coffee_block "20140103") (coffee_block "20140104")
           (coffee_block "20140105")).
  reflexivity.
Defined.

Example main_3_2_of_five_rows_text :
  main five_rows 3 (Some 2%Z)
  = Ok (join (String "010" EmptyString)
          ["!Type:Bank";
           "D20140103"; "T-1.50"; "Mkoffie"; "^";
           "D20140104"; "T-1.50"; "Mkoffie"; "^";
           "D20140105"; "T-1.50"; "Mkoffie"; "^"]).
Proof. reflexivity. Qed.

(** ** A limit of zero *)

(** C10: with [number = 0], as with no [number], the batch of rows that
    all convert holds every row numbered [start] or more, to the end of the
    input; and whatever the rows, [main] does the same for [number = 0] as
    for no [number]. *)
Theorem zero_limit_is_no_limit (rows : list (gmap string pyval)) (start : Z)
    (qs : list QifEntry.t) :
  mapM process_row rows = Ok qs ->
  main_loop rows 1 start (Some 0%Z) QifEntries.__init__
  = Ok {| QifEntries._entries := drop (Z.to_nat (start - 1)) qs |}
  /\ main_loop rows 1 start None QifEntries.__init__
     = Ok {| QifEntries._entries := drop (Z.to_nat (start - 1)) qs |}
  /\ forall rows', main rows' start (Some 0%Z) = main rows' start None.
Proof.
  intros H. split; [|split].
  - by rewrite (main_loop_unlimited rows 1 start (Some 0%Z) _ qs (or_intror eq_refl) H).
  - by rewrite (main_loop_unlimited rows 1 start None _ qs (or_introl eq_refl) H).
  - intros rows'. unfold main. by rewrite main_loop_zero.
Qed.

Lemma zero_limit_is_no_limit_witness :
  main_loop five_rows 1 4 (Some 0%Z) QifEntries.__init__
  = Ok {| QifEntries._entries := [coffee_block "20140104"; coffee_block "20140105"] |}.
Proof.
  exact (proj1 (zero_limit_is_no_limit five_rows 4
                  [coffee_block "20140101"; coffee_block "20140102";
                   coffee_block "20140103"; coffee_block "20140104";
                   coffee_block "20140105"]
                  eq_refl)).
Defined.

Example main_skips_before_start :
  main five_rows 5 None
  = Ok (join (String "010" EmptyString)
          ["!Type:Bank"; "D20140105"; "T-1.50"; "Mkoffie"; "^"]).
Proof. reflexivity. Qed.


(** * Further properties of the converter *)

(** ** Rows with text fields, by what they raise *)

Lemma process_row_text_cases (row : gmap string pyval) (raw m o : string) :
  row !! "Bedrag (EUR)" = Some (PyStr raw) ->
  row !! "Mededelingen" = Some (PyStr m) ->
  row !! "Naam / Omschrijving" = Some (PyStr o) ->
  let kind := dict_get row "MutatieSoort" in
  (incasso_malformed kind m o = true ->
     process_row row = Raise (Exception (PyStr m) (PyStr o)))
  /\ (kenmerk_missing kind m o = true -> process_row row = Raise ValueError)
  /\ (incasso_malformed kind m o = false -> kenmerk_missing kind m o = false ->
        exists q, process_row row = Ok q).
Proof.
  intros Hraw Hm Ho kind.
  pose proof (process_row_memo row raw Hraw) as Hrow. simpl in Hrow.
  set (entry := {| Entry._data := _ |}) in Hrow.
  assert (Hm' : Entry.__getitem__ entry "Mededelingen" = PyStr m).
  { unfold entry. rewrite entry_getitem_init by done. unfold dict_get. by rewrite Hm. }
  assert (Ho' : Entry.__getitem__ entry "Naam / Omschrijving" = PyStr o).
  { unfold entry. rewrite entry_getitem_init by done. unfold dict_get. by rewrite Ho. }
  assert (Hk' : Entry.__getitem__ entry "MutatieSoort" = kind).
  { unfold entry. by rewrite entry_getitem_init. }
  destruct (memo_before_prefix_raises entry m o Hm' Ho') as (Hmal & Hken & Hok).
  rewrite Hk' in Hmal, Hken, Hok. split; [|split].
  - intros Hc. by rewrite (Hmal Hc) in Hrow.
  - intros Hc. by rewrite (Hken Hc) in Hrow.
  - intros H1 H2. destruct (Hok H1 H2) as [memo Hmemo]. by rewrite Hmemo in Hrow.
Qed.

(** X13: a row whose amount, narrative and counterparty are text and whose
    kind is neither Incasso nor Verzamelbetaling always converts: no other
    strategy, and no unknown or absent kind, can raise on text. *)
Theorem text_row_converts (row : gmap string pyval) (raw m o : string) :
  row !! "Bedrag (EUR)" = Some (PyStr raw) ->
  row !! "Mededelingen" = Some (PyStr m) ->
  row !! "Naam / Omschrijving" = Some (PyStr o) ->
  dict_get row "MutatieSoort" <> PyStr "Incasso" ->
  dict_get row "MutatieSoort" <> PyStr "Verzamelbetaling" ->
  exists q, process_row row = Ok q.
Proof.
  intros Hraw Hm Ho Hi Hv.
  destruct (process_row_text_cases row raw m o Hraw Hm Ho) as (_ & _ & Hok).
  apply Hok; unfold incasso_malformed, kenmerk_missing;
    rewrite ?(bool_decide_eq_false_2 _ Hi), ?(bool_decide_eq_false_2 _ Hv); done.
Qed.

Lemma text_row_converts_witness :
  exists q,
    process_row (mk_row "20140102" "650,00" "Af" "Overschrijving" "geen markers" "Bob")
    = Ok q.
Proof.
  apply (text_row_converts _ "650,00" "geen markers" "Bob");
    [reflexivity | reflexivity | reflexivity | discriminate | discriminate].
Defined.

(** X16: the strategies that cut at "Kenmerk: " look it up without a
    guard: an Incasso row that meets the precondition, or a
    Verzamelbetaling row, whose narrative has "Naam: " and no "Kenmerk: "
    raises ValueError, and [main] raises it for the batch. *)
Theorem kenmerk_absent_raises (row : gmap string pyval) (raw m o : string) :
  row !! "Bedrag (EUR)" = Some (PyStr raw) ->
  row !! "Mededelingen" = Some (PyStr m) ->
  row !! "Naam / Omschrijving" = Some (PyStr o) ->
  (dict_get row "MutatieSoort" = PyStr "Incasso" /\ sepa_incasso m o = true)
  \/ dict_get row "MutatieSoort" = PyStr "Verzamelbetaling" ->
  occurs "Naam: " m = true ->
  occurs "Kenmerk: " m = false ->
  process_row row = Raise ValueError
  /\ forall rest number, main (row :: rest) 1 number = Raise ValueError.
Proof.
  intros Hraw Hm Ho Hkind Hn Hk.
  destruct (process_row_text_cases row raw m o Hraw Hm Ho) as (_ & Hken & _).
  assert (Hr : process_row row = Raise ValueError).
  { apply Hken. unfold kenmerk_missing. rewrite Hn, Hk.
    destruct Hkind as [[-> ->] | ->]; [done|].
    rewrite (bool_decide_eq_true_2 (_ = PyStr "Verzamelbetaling")) by done.
    by rewrite orb_true_r. }
  split; [done|]. intros rest number. unfold process_row in Hr.
  unfold main. simpl. destruct (Entry.__init__ row) as [e|x]; simpl in *.
  - unfold QifEntries.add_entry. by rewrite Hr.
  - by injection Hr as ->.
Qed.

Lemma kenmerk_absent_raises_witness :
  process_row (mk_row "20140102" "9,99" "Af" "Verzamelbetaling" "Naam: Jane Doe" "Werkgever")
  = Raise ValueError.
Proof.
  apply (kenmerk_absent_raises _ "9,99" "Naam: Jane Doe" "Werkgever");
    [reflexivity | reflexivity | reflexivity | right; reflexivity
     | reflexivity | reflexivity].
Defined.

(** ** The Diversen, Verzamelbetaling and Default strategies *)

(** X1: for the kind Diversen with a text narrative, whatever the
    counterparty field holds, the memo is the first 64 characters of the
    narrative (the whole narrative when it is no longer than that), and the
    final memo is that text trimmed, with no category before it. *)
Theorem diversen_memo (entry : Entry.t) (m : string) :
  Entry.__getitem__ entry "MutatieSoort" = PyStr "Diversen" ->
  Entry.__getitem__ entry "Mededelingen" = PyStr m ->
  QifEntry.memo_before_prefix entry = Ok (PyStr (str_take 64 m))
  /\ QifEntry._memo entry = Ok (strip (str_take 64 m))
  /\ String.length (str_take 64 m) = Nat.min 64 (String.length m)
  /\ m = str_take 64 m +:+ str_drop 64 m.
Proof.
  intros Hk Hm.
  assert (Hb : QifEntry.memo_before_prefix entry = Ok (PyStr (str_take 64 m))).
  { rewrite (memo_before_prefix_dispatch entry _ _ Hk memo_methods_diversen).
    by rewrite Hm. }
  split; [done|]. split; [|split].
  - rewrite _memo_unfold, Hb, Hk. reflexivity.
  - destruct (Nat.le_ge_cases 64 (String.length m)) as [H|H].
    + rewrite take_length_str by done. lia.
    + rewrite take_all_str by done. lia.
  - by rewrite take_drop_str.
Qed.

Lemma diversen_memo_witness :
  QifEntry._memo
    (mk_entry "20140102" "4,00" "Af" "Diversen"
       " Kosten tweede rekeninghouder, periode 1 januari tot en met 31 maart 2014"
       "Bank")
  = Ok "Kosten tweede rekeninghouder, periode 1 januari tot en met 31 m".
Proof.
  destruct (diversen_memo
              (mk_entry "20140102" "4,00" "Af" "Diversen"
                 " Kosten tweede rekeninghouder, periode 1 januari tot en met 31 maart 2014"
                 "Bank")
              " Kosten tweede rekeninghouder, periode 1 januari tot en met 31 maart 2014"
              eq_refl eq_refl) as (_ & H & _).
  rewrite H. reflexivity.
Defined.

(** X2: for the kind Verzamelbetaling with a text narrative: without
    "Naam: " the strategy declines and the memo is the default one; with
    "Naam: " and "Kenmerk: " the memo is the slice between the first
    occurrences, and the final memo is "Transfer", a space and that slice,
    not trimmed. *)
Theorem verzamelbetaling_memo (entry : Entry.t) (m : string) :
  Entry.__getitem__ entry "MutatieSoort" = PyStr "Verzamelbetaling" ->
  Entry.__getitem__ entry "Mededelingen" = PyStr m ->
  (str_find "Naam: " m = None ->
     QifEntry.memo_before_prefix entry
     = Ok (PyStr (m +:+ " " +:+ py_str (Entry.__getitem__ entry "Naam / Omschrijving"))))
  /\ (forall i j,
        str_find "Naam: " m = Some i -> str_find "Kenmerk: " m = Some j ->
        QifEntry.memo_before_prefix entry = Ok (PyStr (str_slice (i + 6) j m))
        /\ QifEntry._memo entry = Ok ("Transfer " +:+ str_slice (i + 6) j m)
        /\ (i + 6 <= j ->
            m = str_take i m +:+ "Naam: " +:+ str_slice (i + 6) j m
                +:+ "Kenmerk: " +:+ str_drop (j + 9) m)).
Proof.
  intros Hk Hm.
  pose proof (memo_before_prefix_dispatch entry _ _ Hk memo_methods_verzamelbetaling)
    as Hd.
  rewrite Hm in Hd. unfold default_memo in Hd. rewrite Hm in Hd.
  unfold QifEntry._memo_verzamelbetaling in Hd. simpl in Hd.
  split.
  - intros Hn. rewrite Hn in Hd. exact Hd.
  - intros i j Hi Hj. rewrite Hi, Hj in Hd. simpl in Hd.
    split; [exact Hd|]. split.
    + rewrite _memo_unfold, Hd, Hk. reflexivity.
    + intros Hle. by apply (between_markers "Naam: " "Kenmerk: " m i j).
Qed.

Lemma verzamelbetaling_memo_witness :
  QifEntry._memo
    (mk_entry "20140125" "2100,00" "Bij" "Verzamelbetaling"
       "Naam: ACME BV Kenmerk: salaris januari" "ACME BV")
  = Ok "Transfer ACME BV ".
Proof.
  destruct (verzamelbetaling_memo
              (mk_entry "20140125" "2100,00" "Bij" "Verzamelbetaling"
                 "Naam: ACME BV Kenmerk: salaris januari" "ACME BV")
              "Naam: ACME BV Kenmerk: salaris januari" eq_refl eq_refl)
    as (_ & H).
  destruct (H 0 14 eq_refl eq_refl) as (_ & Hmemo & _).
  rewrite Hmemo. reflexivity.
Defined.

(** X3: a kind without a strategy of its own, an absent kind included,
    gets the Default memo: the narrative, a space, the counterparty text,
    where an absent field reads as the text "None".  The final memo is that
    text after the category and a space for a Storting row, and that text
    trimmed for every other such kind. *)
Theorem default_memo_unknown_kind (entry : Entry.t) :
  Entry.__getitem__ entry "MutatieSoort" ∉ PyStr <$> strategy_kinds ->
  let body := py_str (Entry.__getitem__ entry "Mededelingen") +:+ " "
              +:+ py_str (Entry.__getitem__ entry "Naam / Omschrijving") in
  QifEntry.memo_before_prefix entry = Ok (PyStr body)
  /\ QifEntry._memo entry
     = Ok (if decide (Entry.__getitem__ entry "MutatieSoort" = PyStr "Storting")
           then "Deposit " +:+ body else strip body).
Proof.
  intros Hk body.
  assert (Hb : QifEntry.memo_before_prefix entry = Ok (PyStr body)).
  { apply memo_before_prefix_unknown. intros kind Hkind. rewrite Hkind in Hk.
    apply memo_methods_other; intros ->; apply Hk; unfold strategy_kinds;
      set_solver. }
  split; [done|]. rewrite _memo_unfold, Hb. simpl.
  unfold classify. repeat case_decide; try done;
    exfalso; apply Hk; unfold strategy_kinds; set_solver.
Qed.

Lemma default_memo_unknown_kind_witness :
  QifEntry._memo
    {| Entry._data :=
         <["amount" := PyStr "9.99"]>
           (row_without_narrative "Rente" " Spaarrekening ") |}
  = Ok "None  Spaarrekening".
Proof.
  refine (proj2 (default_memo_unknown_kind
                   {| Entry._data :=
                        <["amount" := PyStr "9.99"]>
                          (row_without_narrative "Rente" " Spaarrekening ") |}
                   _)).
  apply (bool_decide_unpack _). vm_compute. exact I.
Defined.

(** ** A row without narrative *)

(** X14: when the narrative is absent (None) and the counterparty is text,
    a strategy that touches the narrative raises, each with the exception
    of the operation it tries first: Diversen and Verzamelbetaling
    TypeError, Internetbankieren and Overschrijving AttributeError (its
    [except ValueError] does not catch it); the ATM strategy raises
    TypeError unless the counterparty has one of its prefixes, in which case
    the narrative is not read; Incasso raises its own exception, carrying
    None, when the counterparty starts with "SEPA Incasso", and
    AttributeError otherwise. *)
Theorem absent_narrative (entry : Entry.t) (o : string) :
  Entry.__getitem__ entry "Mededelingen" = PyNone ->
  Entry.__getitem__ entry "Naam / Omschrijving" = PyStr o ->
  let kind := Entry.__getitem__ entry "MutatieSoort" in
  (kind = PyStr "Diversen" \/ kind = PyStr "Verzamelbetaling" ->
     QifEntry.memo_before_prefix entry = Raise TypeError)
  /\ (kind = PyStr "Internetbankieren" \/ kind = PyStr "Overschrijving" ->
        QifEntry.memo_before_prefix entry = Raise AttributeError)
  /\ (kind = PyStr "Geldautomaat" \/ kind = PyStr "Betaalautomaat" ->
        QifEntry.memo_before_prefix entry
        = if startswith "ING>" o || startswith "ING BANK>" o
             || startswith "OPL. CHIPKNIP" o
          then Ok (PyStr o) else Raise TypeError)
  /\ (kind = PyStr "Incasso" ->
        QifEntry.memo_before_prefix entry
        = if startswith "SEPA Incasso" o
          then Raise (Exception PyNone (PyStr o)) else Raise AttributeError).
Proof.
  intros Hm Ho kind. subst kind.
  repeat split; intros Hk; try destruct Hk as [Hk|Hk];
    erewrite (memo_before_prefix_dispatch entry _ _ Hk) by reflexivity;
    rewrite Hm, Ho; try reflexivity.
  - unfold QifEntry._memo_geldautomaat. simpl.
    destruct (startswith "ING>" o); simpl; [done|].
    destruct (startswith "ING BANK>" o); simpl; [done|].
    by destruct (startswith "OPL. CHIPKNIP" o).
  - unfold QifEntry._memo_geldautomaat. simpl.
    destruct (startswith "ING>" o); simpl; [done|].
    destruct (startswith "ING BANK>" o); simpl; [done|].
    by destruct (startswith "OPL. CHIPKNIP" o).
  - unfold QifEntry._memo_incasso. simpl.
    by destruct (startswith "SEPA Incasso" o).
Qed.

Lemma absent_narrative_witness :
  QifEntry.memo_before_prefix
    {| Entry._data :=
         <["amount" := PyStr "9.99"]> (row_without_narrative "Diversen" "Iemand") |}
  = Raise TypeError
  /\ QifEntry.memo_before_prefix
       {| Entry._data :=
            <["amount" := PyStr "9.99"]>
              (row_without_narrative "Geldautomaat" "ING> Utrecht") |}
     = Ok (PyStr "ING> Utrecht").
Proof.
  split.
  - destruct (absent_narrative
                {| Entry._data :=
                     <["amount" := PyStr "9.99"]>
                       (row_without_narrative "Diversen" "Iemand") |}
                "Iemand") as (H & _); [reflexivity | reflexivity |].
    apply H. left. reflexivity.
  - destruct (absent_narrative
                {| Entry._data :=
                     <["amount" := PyStr "9.99"]>
                       (row_without_narrative "Geldautomaat" "ING> Utrecht") |}
                "ING> Utrecht") as (_ & _ & H & _); [reflexivity | reflexivity |].
    rewrite H by (left; reflexivity). reflexivity.
Defined.

Example absent_narrative_rows :
  process_row (row_without_narrative "Diversen" "Iemand") = Raise TypeError
  /\ process_row (row_without_narrative "Overschrijving" "Iemand")
     = Raise AttributeError
  /\ process_row (row_without_narrative "Incasso" "SEPA Incasso X")
     = Raise (Exception PyNone (PyStr "SEPA Incasso X")).
Proof. repeat split; reflexivity. Qed.

(** ** The QIF block of an entry *)

Lemma join_snoc (sep x : string) (l : list string) :
  l <> [] -> join sep (l ++ [x]) = join sep l +:+ sep +:+ x.
Proof.
  induction l as [|a l IH]; [done|]. intros _.
  destruct l as [|b l]; [done|].
  change (join sep ((a :: b :: l) ++ [x]))
    with (a +:+ sep +:+ join sep ((b :: l) ++ [x])).
  rewrite IH by done.
  change (join sep (a :: b :: l)) with (a +:+ sep +:+ join sep (b :: l)).
  by rewrite !app_assoc_str.
Qed.

(** X4: the block of an entry that converts has the lines D, T, M and the
    closing caret, in that order, and an N line before M exactly when the
    kind has a category; the memo line then starts with the same category
    and a space, so the category is written twice. *)
Theorem block_layout (entry : Entry.t) (q : QifEntry.t) :
  QifEntry.__init__ entry = Ok q ->
  exists amount memo,
    QifEntry._amount_format entry = Ok amount
    /\ QifEntry._memo entry = Ok memo
    /\ QifEntry._entry q = entry
    /\ let date := "D" +:+ py_str (Entry.__getitem__ entry "Datum") in
       match classify (Entry.__getitem__ entry "MutatieSoort") with
       | PyNone =>
           QifEntry._data q = [date; "T" +:+ amount; "M" +:+ memo; "^"]
       | PyStr label =>
           QifEntry._data q
           = [date; "T" +:+ amount; "N" +:+ label; "M" +:+ memo; "^"]
           /\ startswith (label +:+ " ") memo = true
       end.
Proof.
  unfold QifEntry.__init__, QifEntry._processing.
  destruct (QifEntry._amount_format entry) as [amount|] eqn:Ha; [|done]. simpl.
  rewrite _entry_type_classify. simpl.
  destruct (QifEntry._memo entry) as [memo|] eqn:Hmemo; [|done]. simpl.
  intros [= <-]. exists amount, memo. repeat (split; [done|]). simpl.
  rewrite _memo_unfold in Hmemo.
  destruct (QifEntry.memo_before_prefix entry) as [body|]; [|done]. simpl in Hmemo.
  destruct (classify_cases (Entry.__getitem__ entry "MutatieSoort"))
    as [H|[H|[H|H]]]; rewrite H in *; simpl in *; [done|..];
    injection Hmemo as <-; (split; [done|]); unfold fmt_pair; simpl;
    apply startswith_spec; by exists (py_str body).
Qed.

Lemma block_layout_witness :
  exists amount memo,
    QifEntry._data (coffee_block "20140103") = ["D20140103"; "T" +:+ amount; "M" +:+ memo; "^"].
Proof.
  destruct (block_layout
              (mk_entry "20140103" "1,50" "Af" "Diversen" "koffie" "Kantine")
              (coffee_block "20140103") eq_refl)
    as (amount & memo & _ & _ & _ & H).
  exists amount, memo. exact H.
Defined.

(** ** The batch text *)

(** X5: adding an entry to a batch appends its block: the entries grow by
    that one block at the end, and the text of the batch grows by a newline
    and the text of the block, so the text never ends in a newline and the
    header stays the first line. *)
Theorem serialize_add_entry (qif qif' : QifEntries.t) (entry : Entry.t) :
  QifEntries.add_entry qif entry = Ok qif' ->
  exists q,
    QifEntry.__init__ entry = Ok q
    /\ QifEntries._entries qif' = QifEntries._entries qif ++ [q]
    /\ QifEntries.serialize qif'
       = QifEntries.serialize qif +:+ newline +:+ QifEntry.serialize q
    /\ startswith "!Type:Bank" (QifEntries.serialize qif') = true.
Proof.
  unfold QifEntries.add_entry.
  destruct (QifEntry.__init__ entry) as [q|]; [|done]. simpl.
  intros [= <-]. exists q. split; [done|]. split; [done|].
  assert (Hs : QifEntries.serialize
                 {| QifEntries._entries := QifEntries._entries qif ++ [q] |}
               = QifEntries.serialize qif +:+ newline +:+ QifEntry.serialize q).
  { unfold QifEntries.serialize, newline.
    cbn [QifEntries._entries]. rewrite map_app.
    change (map QifEntry.serialize [q]) with [QifEntry.serialize q].
    rewrite app_comm_cons. by rewrite join_snoc. }
  split; [done|]. rewrite Hs. unfold QifEntries.serialize.
  apply startswith_spec.
  destruct (map QifEntry.serialize (QifEntries._entries qif)) as [|b l].
  - by eexists.
  - change (join (String "010" EmptyString) ("!Type:Bank" :: b :: l))
      with ("!Type:Bank" +:+ String "010" EmptyString
            +:+ join (String "010" EmptyString) (b :: l)).
    rewrite app_assoc_str. by eexists.
Qed.

Lemma serialize_add_entry_witness :
  exists qif',
    QifEntries.add_entry QifEntries.__init__
      (mk_entry "20140103" "1,50" "Af" "Diversen" "koffie" "Kantine")
    = Ok qif'
    /\ QifEntries.serialize qif'
       = join newline ["!Type:Bank"; "D20140103"; "T-1.50"; "Mkoffie"; "^"].
Proof.
  eexists. split; [reflexivity|].
  destruct (serialize_add_entry QifEntries.__init__ _
              (mk_entry "20140103" "1,50" "Af" "Diversen" "koffie" "Kantine")
              eq_refl) as (q & Hq & _ & Hs & _).
  rewrite Hs. injection Hq as <-. reflexivity.
Defined.

(** ** The amount *)

Lemma get_cons (a : ascii) (s : string) (n : nat) :
  String.get (S n) (String a s) = String.get n s.
Proof. reflexivity. Qed.

Lemma replace_char_absent (old new : ascii) (s : string) (n : nat) :
  old <> new -> String.get n (replace_char old new s) <> Some old.
Proof.
  intros Hne. rewrite replace_char_get.
  destruct (String.get n s) as [a|]; simpl; [|done].
  case_decide; congruence.
Qed.

(** X12: the signed amount of a row whose amount column holds text is one
    sign character followed by as many characters as the raw amount has,
    and none of its characters is a comma. *)
Theorem signed_amount_has_no_comma (row : gmap string pyval) (raw : string) :
  row !! "Bedrag (EUR)" = Some (PyStr raw) ->
  exists entry signed,
    Entry.__init__ row = Ok entry
    /\ QifEntry._amount_format entry = Ok signed
    /\ String.length signed = S (String.length raw)
    /\ (String.get 0 signed = Some "+"%char \/ String.get 0 signed = Some "-"%char)
    /\ forall n, String.get n signed <> Some ","%char.
Proof.
  intros H.
  set (entry := {| Entry._data :=
                     <["amount" := PyStr (replace_char "," "." raw)]> row |}).
  assert (Ha : Entry.__getitem__ entry "amount" = PyStr (replace_char "," "." raw)).
  { unfold Entry.__getitem__, dict_get. simpl. by rewrite lookup_insert_eq. }
  assert (Hsign : exists sign,
             (sign = "+"%char \/ sign = "-"%char)
             /\ QifEntry._amount_format entry
                = Ok (String sign (replace_char "," "." raw))).
  { unfold QifEntry._amount_format. rewrite Ha.
    destruct (py_eq_str _ _); simpl; eauto. }
  destruct Hsign as (sign & Hsign & Hfmt).
  exists entry, (String sign (replace_char "," "." raw)).
  split; [by apply entry_init_text|]. split; [done|].
  split; [simpl; by rewrite replace_char_length|].
  split; [destruct Hsign as [-> | ->]; auto|].
  intros [|n].
  - destruct Hsign as [-> | ->]; done.
  - rewrite get_cons. by apply replace_char_absent.
Qed.

Lemma signed_amount_has_no_comma_witness :
  exists entry signed,
    Entry.__init__ (mk_row "20140102" "1.234,56" "Bij" "Loon" "salary" "ACME")
    = Ok entry
    /\ QifEntry._amount_format entry = Ok signed
    /\ String.get 6 signed <> Some ","%char.
Proof.
  destruct (signed_amount_has_no_comma
              (mk_row "20140102" "1.234,56" "Bij" "Loon" "salary" "ACME")
              "1.234,56" eq_refl)
    as (entry & signed & Hinit & Hfmt & _ & _ & Hno).
  exists entry, signed. split; [exact Hinit|]. split; [exact Hfmt | apply Hno].
Defined.

(** ** Construction of the record *)

(** X11: [_clean_up] is idempotent: the dictionary it returns keeps the raw
    amount column, so cleaning it again returns it unchanged; and the key
    "amount" holds the normalised amount, whatever a column of that name
    held in the row. *)
Theorem clean_up_idempotent (data data' : gmap string pyval) :
  Entry._clean_up data = Ok data' ->
  Entry._clean_up data' = Ok data'
  /\ data' !! "Bedrag (EUR)" = data !! "Bedrag (EUR)"
  /\ exists raw,
       data !! "Bedrag (EUR)" = Some (PyStr raw)
       /\ data' !! "amount" = Some (PyStr (replace_char "," "." raw)).
Proof.
  unfold Entry._clean_up, dict_subscript.
  destruct (data !! "Bedrag (EUR)") as [[|raw]|] eqn:Hraw; try done. simpl.
  intros [= <-].
  assert (Hkeep : <["amount" := PyStr (replace_char "," "." raw)]> data
                    !! "Bedrag (EUR)" = Some (PyStr raw))
    by (by rewrite lookup_insert_ne).
  split; [|split].
  - rewrite Hkeep. simpl. by rewrite insert_insert_eq.
  - done.
  - exists raw. split; [done|]. by rewrite lookup_insert_eq.
Qed.

Lemma clean_up_idempotent_witness :
  let data :=
    <["amount" := PyStr "ignored"]>
      (mk_row "20140102" "12,50" "Af" "Diversen" "rent" "J. Smith") in
  let data' := <["amount" := PyStr "12.50"]> data in
  Entry._clean_up data = Ok data'
  /\ Entry._clean_up data' = Ok data'
  /\ data' !! "amount" = Some (PyStr "12.50").
Proof.
  intros data data'.
  assert (H : Entry._clean_up data = Ok data') by reflexivity.
  split; [exact H|].
  destruct (clean_up_idempotent data data' H) as (Hidem & _ & _).
  split; [exact Hidem | reflexivity].
Defined.

(** X15: the keys of a constructed record are the columns of the row and
    the key "amount"; a name is among them exactly when it is "amount" or a
    column of the row, and every name outside them reads as None. *)
Theorem entry_keys (row : gmap string pyval) (entry : Entry.t) :
  Entry.__init__ row = Ok entry ->
  Entry.keys entry = {["amount"]} ∪ dom row
  /\ "Bedrag (EUR)" ∈ Entry.keys entry
  /\ forall k, k ∉ Entry.keys entry -> Entry.__getitem__ entry k = PyNone.
Proof.
  intros H.
  assert (exists raw, row !! "Bedrag (EUR)" = Some (PyStr raw)) as [raw Hraw]
    by (apply entry_init_ok_iff; eauto).
  rewrite (entry_init_text _ _ Hraw) in H. injection H as <-.
  unfold Entry.keys, Entry.__getitem__, dict_get. simpl.
  split; [apply dom_insert_L|]. split.
  - rewrite dom_insert_L. apply elem_of_union_r. apply elem_of_dom. eauto.
  - intros k Hk. apply not_elem_of_dom in Hk. by rewrite Hk.
Qed.

Lemma entry_keys_witness :
  exists entry,
    Entry.__init__ (mk_row "20140102" "12,50" "Af" "Diversen" "rent" "J. Smith")
    = Ok entry
    /\ "amount" ∈ Entry.keys entry /\ "Datum" ∈ Entry.keys entry.
Proof.
  eexists. split; [reflexivity|].
  destruct (entry_keys
              (mk_row "20140102" "12,50" "Af" "Diversen" "rent" "J. Smith")
              _ eq_refl) as (H & _ & _).
  rewrite H. split.
  - apply elem_of_union_l. apply elem_of_singleton. reflexivity.
  - apply elem_of_union_r. apply elem_of_dom. by eexists.
Defined.

(** ** The loop of main *)

Section loop.
Implicit Types (rows pre rest : list (gmap string pyval)) (qs : list QifEntry.t)
               (c start n : Z) (qif : QifEntries.t).

Lemma mapM_result_cons {A B} (f : A -> result B) (x : A) (l : list A) (ys : list B) :
  mapM f (x :: l) = Ok ys ->
  exists y ys', f x = Ok y /\ mapM f l = Ok ys' /\ ys = y :: ys'.
Proof.
  change (mapM f (x :: l)) with (y ← f x; k ← mapM f l; mret (y :: k)).
  destruct (f x) as [y|]; [|done]. simpl.
  destruct (mapM f l) as [ys'|]; [|done]. simpl.
  intros [= <-]. by exists y, ys'.
Qed.

(** Rows numbered below [start] are constructed and passed over. *)
Lemma main_loop_skip pre rows c start number qif (es : list Entry.t) :
  mapM Entry.__init__ pre = Ok es ->
  (c + Z.of_nat (length pre) <= start)%Z ->
  main_loop (pre ++ rows) c start number qif
  = main_loop rows (c + Z.of_nat (length pre)) start number qif.
Proof.
  revert c es. induction pre as [|r pre IH]; intros c es Hes Hle.
  - simpl. by rewrite Z.add_0_r.
  - apply mapM_result_cons in Hes as (e & es' & He & Hes' & ->).
    simpl in *. rewrite He. simpl. rewrite Z.geb_leb.
    destruct (Z.leb_spec start c) as [?|_]; [lia|].
    rewrite (IH (c + 1)%Z es' Hes') by lia. f_equal. lia.
Qed.

(** A first row that does not construct stops the loop with its exception. *)
Lemma main_loop_unconstructible r rest c start number qif e :
  Entry.__init__ r = Raise e ->
  main_loop (r :: rest) c start number qif = Raise e.
Proof. intros H. simpl. by rewrite H. Qed.

(** Once the loop has stopped, what follows is not read. *)
Lemma main_loop_stops rows rest c start n qif :
  n <> 0%Z -> rows <> [] ->
  (Z.max start (start + n) <= c + Z.of_nat (length rows) - 1)%Z ->
  main_loop (rows ++ rest) c start (Some n) qif
  = main_loop rows c start (Some n) qif.
Proof.
  intros Hn. revert c qif. induction rows as [|r rows IH]; intros c qif Hne Hlast.
  { done. }
  simpl in *. destruct (Entry.__init__ r) as [entry|]; simpl; [|done].
  rewrite Z.geb_leb. destruct (Z.leb_spec start c) as [Hle|Hlt].
  - destruct (QifEntries.add_entry qif entry) as [qif'|]; simpl; [|done].
    rewrite Z.gtb_ltb. destruct (Z.eqb_spec n 0) as [|_]; [done|]. simpl.
    destruct (Z.ltb_spec (start + n - 1) c) as [Hstop|Hgo]; [done|].
    apply IH; [destruct rows; [simpl in *; lia | done] | lia].
  - apply IH; [destruct rows; [simpl in *; lia | done] | lia].
Qed.

(** Without a limit that counts, rows that convert are added from [start]
    on, and the loop goes on with the rows that follow. *)
Lemma main_loop_unlimited_app pre rest c start number qif qs :
  number = None \/ number = Some 0%Z ->
  mapM process_row pre = Ok qs ->
  main_loop (pre ++ rest) c start number qif
  = main_loop rest (c + Z.of_nat (length pre)) start number
      {| QifEntries._entries :=
           QifEntries._entries qif ++ drop (Z.to_nat (start - c)) qs |}.
Proof.
  intros Hnum. revert c qif qs.
  induction pre as [|r pre IH]; intros c qif qs Hqs.
  - injection Hqs as <-. simpl. rewrite drop_nil, app_nil_r, Z.add_0_r.
    by destruct qif.
  - apply mapM_process_cons in Hqs as (entry & q & qs' & He & Hq & Hqs' & ->).
    simpl. rewrite He. simpl. rewrite Z.geb_leb.
    destruct (Z.leb_spec start c) as [Hle|Hlt].
    + unfold QifEntries.add_entry. rewrite Hq. simpl.
      assert (stop_after number c start = false) as ->
          by (by destruct Hnum as [-> | ->]).
      rewrite (IH _ _ _ Hqs'). simpl.
      replace (Z.to_nat (start - (c + 1))) with 0 by lia.
      replace (Z.to_nat (start - c)) with 0 by lia.
      rewrite !drop_0, <- app_assoc. f_equal. lia.
    + rewrite (IH _ _ _ Hqs').
      replace (Z.to_nat (start - c)) with (S (Z.to_nat (start - (c + 1)))) by lia.
      f_equal. lia.
Qed.

End loop.

(** ** Which rows main reads, adds and passes over *)

(** X6: with [start] at least 1 and a limit [n] other than 0, the batch of
    rows that all convert holds the rows from [start] on, [n + 1] of them
    when [n] is positive and one when it is negative (fewer when the input
    ends first), in the order of the input. *)
Theorem limited_range (rows : list (gmap string pyval)) (qs : list QifEntry.t)
    (start n : Z) :
  (1 <= start)%Z -> n <> 0%Z ->
  mapM process_row rows = Ok qs ->
  main_loop rows 1 start (Some n) QifEntries.__init__
  = Ok {| QifEntries._entries :=
            take (Z.to_nat (Z.max 1 (n + 1))) (drop (Z.to_nat (start - 1)) qs) |}.
Proof.
  intros Hstart Hn Hqs. rewrite (main_loop_limited rows 1 start n _ qs Hn Hqs).
  simpl. do 3 f_equal. lia.
Qed.

Lemma limited_range_witness :
  main_loop five_rows 1 2 (Some 1%Z) QifEntries.__init__
  = Ok {| QifEntries._entries := [coffee_block "20140102"; coffee_block "20140103"] |}
  /\ main_loop five_rows 1 5 (Some (-3)%Z) QifEntries.__init__
     = Ok {| QifEntries._entries := [coffee_block "20140105"] |}.
Proof.
  split.
  - apply (limited_range five_rows
             [coffee_block "20140101"; coffee_block "20140102"; coffee_block "20140103";
              coffee_block "20140104"; coffee_block "20140105"] 2 1);
      [lia | lia | reflexivity].
  - apply (limited_range five_rows
             [coffee_block "20140101"; coffee_block "20140102"; coffee_block "20140103";
              coffee_block "20140104"; coffee_block "20140105"] 5 (-3));
      [lia | lia | reflexivity].
Defined.

(** X7: the rows numbered below [start] only have to construct: the
    output is the same for any other rows in their place that construct
    too, so a passed-over row whose memo could not be made does no harm. *)
Theorem skipped_rows_do_not_matter (pre pre' rows : list (gmap string pyval))
    (es es' : list Entry.t) (start : Z) (number : option Z) :
  mapM Entry.__init__ pre = Ok es ->
  mapM Entry.__init__ pre' = Ok es' ->
  length pre = length pre' ->
  (Z.of_nat (length pre) < start)%Z ->
  main (pre ++ rows) start number = main (pre' ++ rows) start number.
Proof.
  intros Hes Hes' Hlen Hlt. unfold main.
  rewrite (main_loop_skip pre rows 1 start number _ es Hes) by lia.
  rewrite (main_loop_skip pre' rows 1 start number _ es' Hes') by lia.
  by rewrite Hlen.
Qed.

Lemma skipped_rows_do_not_matter_witness :
  main (row_malformed :: five_rows) 5 None
  = main (mk_row "20131231" "0,01" "Bij" "Rente" "rente" "Bank" :: five_rows) 5 None
  /\ raises (process_row row_malformed).
Proof.
  split.
  - apply (skipped_rows_do_not_matter [row_malformed]
             [mk_row "20131231" "0,01" "Bij" "Rente" "rente" "Bank"] five_rows
             [mk_entry "20140102" "9,99" "Af" "Incasso" "SEPA Incasso zonder naam"
                "Verzekeraar"]
             [mk_entry "20131231" "0,01" "Bij" "Rente" "rente" "Bank"]);
      [reflexivity | reflexivity | reflexivity | simpl; lia].
  - exact I.
Defined.

(** X8: a row numbered below or at [start] is constructed even when it is
    passed over: if it has no text in the amount column, [main] raises and
    prints nothing, whatever follows. *)
Theorem unconstructible_row_aborts (pre post : list (gmap string pyval))
    (r : gmap string pyval) (es : list Entry.t) (e : exn)
    (start : Z) (number : option Z) :
  mapM Entry.__init__ pre = Ok es ->
  (Z.of_nat (length pre) < start)%Z ->
  Entry.__init__ r = Raise e ->
  main (pre ++ r :: post) start number = Raise e.
Proof.
  intros Hes Hlt Hr. unfold main.
  rewrite (main_loop_skip pre (r :: post) 1 start number _ es Hes) by lia.
  by rewrite (main_loop_unconstructible r post _ start number _ e Hr).
Qed.

Lemma unconstructible_row_aborts_witness :
  main (row_malformed :: row_without_amount :: five_rows) 4 (Some 1%Z)
  = Raise KeyError.
Proof.
  apply (unconstructible_row_aborts [row_malformed] five_rows row_without_amount
           [mk_entry "20140102" "9,99" "Af" "Incasso" "SEPA Incasso zonder naam"
              "Verzekeraar"]);
    [reflexivity | simpl; lia | reflexivity].
Defined.

(** X17: without a limit that counts, a row numbered [start] or more
    that raises, after rows that all convert, makes [main] raise the same
    exception: nothing is printed for the rows before it. *)
Theorem failing_row_aborts (pre post : list (gmap string pyval))
    (r : gmap string pyval) (qs : list QifEntry.t) (e : exn)
    (start : Z) (number : option Z) :
  number = None \/ number = Some 0%Z ->
  mapM process_row pre = Ok qs ->
  (start <= Z.of_nat (length pre) + 1)%Z ->
  process_row r = Raise e ->
  main (pre ++ r :: post) start number = Raise e.
Proof.
  intros Hnum Hqs Hle Hr. unfold main.
  rewrite (main_loop_unlimited_app pre (r :: post) 1 start number _ qs Hnum Hqs).
  simpl. unfold process_row in Hr.
  destruct (Entry.__init__ r) as [entry|x]; simpl in *.
  - rewrite Z.geb_leb. destruct (Z.leb_spec start (1 + Z.of_nat (length pre))); [|lia].
    unfold QifEntries.add_entry. by rewrite Hr.
  - by injection Hr as ->.
Qed.

Lemma failing_row_aborts_witness :
  main (five_rows ++ row_malformed :: five_rows) 2 None
  = Raise (Exception (PyStr "SEPA Incasso zonder naam") (PyStr "Verzekeraar")).
Proof.
  apply (failing_row_aborts five_rows five_rows row_malformed
           [coffee_block "20140101"; coffee_block "20140102"; coffee_block "20140103";
            coffee_block "20140104"; coffee_block "20140105"]);
    [left; reflexivity | reflexivity | simpl; lia | reflexivity].
Defined.

(** X9: with a limit [n] other than 0, the rows after the one at which
    the loop stops are not read: when the input has a row numbered
    [start + n] (and one numbered [start]), whatever follows it, rows that
    would raise included, leaves the result of [main] the same. *)
Theorem rows_after_stop_not_read (rows rest : list (gmap string pyval))
    (start n : Z) :
  n <> 0%Z -> rows <> [] ->
  (Z.max start (start + n) <= Z.of_nat (length rows))%Z ->
  main (rows ++ rest) start (Some n) = main rows start (Some n).
Proof.
  intros Hn Hne Hlen. unfold main.
  by rewrite (main_loop_stops rows rest 1 start n _ Hn Hne) by lia.
Qed.

Lemma rows_after_stop_not_read_witness :
  main (five_rows ++ [row_without_amount; row_malformed]) 3 (Some 2%Z)
  = main five_rows 3 (Some 2%Z).
Proof.
  apply (rows_after_stop_not_read five_rows [row_without_amount; row_malformed] 3 2);
    [lia | discriminate | simpl; lia].
Defined.

(** X10: when [start] is beyond the last row and the rows construct, the
    empty input included, [main] prints the header line alone. *)
Theorem start_beyond_input (rows : list (gmap string pyval)) (es : list Entry.t)
    (start : Z) (number : option Z) :
  mapM Entry.__init__ rows = Ok es ->
  (Z.of_nat (length rows) < start)%Z ->
  main rows start number = Ok "!Type:Bank".
Proof.
  intros Hes Hlt. unfold main.
  pose proof (main_loop_skip rows [] 1 start number QifEntries.__init__ es Hes) as H.
  rewrite app_nil_r in H. rewrite H by lia. reflexivity.
Qed.

Lemma start_beyond_input_witness :
  main [] 1 (Some 3%Z) = Ok "!Type:Bank"
  /\ main [row_malformed] 2 None = Ok "!Type:Bank".
Proof.
  split.
  - apply (start_beyond_input [] []); [reflexivity | simpl; lia].
  - apply (start_beyond_input [row_malformed]
             [mk_entry "20140102" "9,99" "Af" "Incasso" "SEPA Incasso zonder naam"
                "Verzekeraar"]);
      [reflexivity | simpl; lia].
Defined.

(** ** The Internetbankieren strategy on its markers *)

(** X18: for the kinds Internetbankieren and Overschrijving with a text
    narrative, whatever the counterparty field holds: without "Naam: " the
    memo is the default one; with "Naam: " and "Omschrijving: " it is the
    slice from after the first to the second; with "Naam: " and "IBAN: "
    and no "Omschrijving:" it is the slice up to "IBAN: ".  The final memo
    puts "Transfer" before it for Internetbankieren and trims it for
    Overschrijving, which has no category. *)
Theorem internetbankieren_memo (entry : Entry.t) (kind m : string) :
  Entry.__getitem__ entry "MutatieSoort" = PyStr kind ->
  kind = "Internetbankieren" \/ kind = "Overschrijving" ->
  Entry.__getitem__ entry "Mededelingen" = PyStr m ->
  (str_find "Naam: " m = None ->
     QifEntry.memo_before_prefix entry
     = Ok (PyStr (m +:+ " " +:+ py_str (Entry.__getitem__ entry "Naam / Omschrijving"))))
  /\ (forall i j,
        str_find "Naam: " m = Some i ->
        str_find "Omschrijving: " m = Some j
        \/ (occurs "Omschrijving:" m = false /\ str_find "IBAN: " m = Some j) ->
        QifEntry.memo_before_prefix entry = Ok (PyStr (str_slice (i + 6) j m))
        /\ QifEntry._memo entry
           = Ok (if decide (kind = "Internetbankieren")
                 then "Transfer " +:+ str_slice (i + 6) j m
                 else strip (str_slice (i + 6) j m))).
Proof.
  intros Hk Hkind Hm.
  assert (Hd : QifEntry.memo_before_prefix entry =
               (memo ← try_except_KeyError
                         (QifEntry._memo_internetbankieren (PyStr m)
                            (Entry.__getitem__ entry "Naam / Omschrijving"))
                         (mret PyNone);
                mret (if py_is_none memo then default_memo entry else memo))).
  { rewrite <- Hm. apply (memo_before_prefix_dispatch entry kind); [done|].
    by destruct Hkind as [-> | ->]. }
  unfold default_memo in Hd. rewrite Hm in Hd.
  unfold QifEntry._memo_internetbankieren in Hd. simpl in Hd.
  split.
  - intros Hn. rewrite Hn in Hd. exact Hd.
  - intros i j Hi Hj. rewrite Hi in Hd. simpl in Hd.
    assert (Hb : QifEntry.memo_before_prefix entry
                 = Ok (PyStr (str_slice (i + 6) j m))).
    { destruct Hj as [Hj | [Hno Hj]].
      - assert (Hocc : occurs "Omschrijving:" m = true).
        { apply (occurs_prefix "Omschrijving:" " "). unfold occurs.
          apply bool_decide_eq_true. simpl. rewrite Hj. eauto. }
        unfold occurs in Hocc. rewrite Hocc in Hd. simpl in Hd.
        by rewrite Hj in Hd.
      - unfold occurs in Hno. rewrite Hno in Hd. simpl in Hd.
        by rewrite Hj in Hd. }
    split; [exact Hb|]. rewrite _memo_unfold, Hb, Hk.
    destruct Hkind as [-> | ->]; reflexivity.
Qed.

Lemma internetbankieren_memo_witness :
  QifEntry._memo
    (mk_entry "20140102" "650,00" "Af" "Internetbankieren"
       "Naam: Bob Omschrijving: huur IBAN: NL00" "Bob")
  = Ok "Transfer Bob "
  /\ QifEntry._memo
       (mk_entry "20140102" "650,00" "Af" "Overschrijving" "Naam: Bob IBAN: NL00" "Bob")
     = Ok "Bob".
Proof.
  split.
  - destruct (internetbankieren_memo
                (mk_entry "20140102" "650,00" "Af" "Internetbankieren"
                   "Naam: Bob Omschrijving: huur IBAN: NL00" "Bob")
                "Internetbankieren" "Naam: Bob Omschrijving: huur IBAN: NL00"
                eq_refl (or_introl eq_refl) eq_refl) as (_ & H).
    destruct (H 0 10 eq_refl (or_introl eq_refl)) as (_ & Hmemo).
    rewrite Hmemo. reflexivity.
  - destruct (internetbankieren_memo
                (mk_entry "20140102" "650,00" "Af" "Overschrijving"
                   "Naam: Bob IBAN: NL00" "Bob")
                "Overschrijving" "Naam: Bob IBAN: NL00"
                eq_refl (or_intror eq_refl) eq_refl) as (_ & H).
    destruct (H 0 10 eq_refl (or_intror (conj eq_refl eq_refl))) as (_ & Hmemo).
    rewrite Hmemo. reflexivity.
Defined.
